(** * pulp_container: the registry response cache and the base-path resolver

    A shallow embedding of [pulp_container/app/cache.py]:
    - the key derivers [RegistryContentCache.make_key],
      [RegistryApiCache.make_key] and [FlatpakIndexStaticCache.make_key];
    - the entry codec [RegistryApiCache.make_entry];
    - the resolver [find_base_path_cached].

    Python objects that the source mutates (the live response, the backing
    store) are threaded through a state-and-exception monad; Python
    exceptions are values of [Exn]. Library code the module calls
    ([json.dumps], [bytes.decode], [QueryDict.urlencode], pulpcore's
    [cache_key], the clock) is abstracted as section variables. *)

From Stdlib Require Import String Ascii ZArith NArith.
From stdpp Require Import base option list sorting strings gmap.

Local Open Scope Z_scope.

(** ** Python built-ins used by the module *)

Module Py.

(** [sep.join(xs)] *)
Definition join (sep : string) (xs : list string) : string :=
  String.concat sep xs.

(** [sorted(xs)] on [str]: ascending by code point. Python's sort is a
    stable merge sort; on a total order whose equivalent elements are
    equal the result does not depend on the algorithm. *)
Definition sorted (xs : list string) : list string :=
  merge_sort String.le xs.

(** [s.startswith(p)] *)
Definition startswith (s p : string) : bool := String.prefix p s.

(** [c.lower()] restricted to the ASCII letters, the only ones that occur
    in HTTP header names. *)
Definition lower_ascii (c : ascii) : ascii :=
  let n := N_of_ascii c in
  if ((65 <=? n) && (n <=? 90))%N then ascii_of_N (n + 32) else c.

Fixpoint lower (s : string) : string :=
  match s with
  | EmptyString => EmptyString
  | String c s' => String (lower_ascii c) (lower s')
  end.

(** No [":"] occurs in [s]. *)
Fixpoint colon_free (s : string) : bool :=
  match s with
  | EmptyString => true
  | String c s' => negb (Ascii.eqb c ":"%char) && colon_free s'
  end.

End Py.

(** ** Exceptions raised by the module and by the calls it makes *)

Inductive Exn : Type :=
| KeyError (key : string)
| ContentNotRenderedError
| UnicodeDecodeError
| ObjectDoesNotExist
| MultipleObjectsReturned
| RepositoryNotFound (name : string).

(** ** Case-insensitive header collections

    aiohttp's [CIMultiDictProxy] (request headers of the content app),
    Django's [HttpHeaders] (request headers of the API) and Django's
    [ResponseHeaders] all compare header names case-insensitively and keep
    insertion order; they are lists of (name, value) pairs here. *)

Module Headers.

Definition t : Type := list (string * string).

Definition same_name (a b : string) : bool :=
  bool_decide (Py.lower a = Py.lower b).

(** [headers.getall(name, default)] of a multidict: every value stored
    under [name], in order; [default] when there is none. *)
Definition getall (name : string) (default : list string) (h : t)
  : list string :=
  match List.filter (fun kv => same_name name (fst kv)) h with
  | [] => default
  | kvs => List.map snd kvs
  end.

(** [headers.get(name)] *)
Fixpoint get (name : string) (h : t) : option string :=
  match h with
  | [] => None
  | (k, v) :: h' => if same_name name k then Some v else get name h'
  end.

(** [headers[name]]: the collection looks the case-folded name up, and
    it is the case-folded name that the [KeyError] carries. *)
Definition getitem (name : string) (h : t) : Exn + string :=
  match get name h with
  | Some v => inr v
  | None => inl (KeyError (Py.lower name))
  end.

(** [headers[name] = value]: replaces the pair stored under the same
    case-folded name in place, or appends a new one. *)
Fixpoint setitem (name value : string) (h : t) : t :=
  match h with
  | [] => [(name, value)]
  | (k, v) :: h' =>
      if same_name name k then (name, value) :: h'
      else (k, v) :: setitem name value h'
  end.

(** [dict(headers)]: a copy, later writes to [headers] do not reach it. *)
Definition to_dict (h : t) : list (string * string) := h.

End Headers.

(** ** Cache objects *)

(** The names under which [make_key] files the request attributes.
    [CacheKeys] is pulpcore's enumeration; its three members are told
    apart here by their names, which differ from the two string keys of
    this module. *)
Module CacheKeys.
Definition path : string := "path".
Definition method : string := "method".
Definition host : string := "host".
End CacheKeys.

Definition ACCEPT_HEADER_KEY : string := "accept_header".
Definition QUERY_KEY : string := "query".

Section Caches.

(** Seconds, as [time.time()] and the TTL setting give them. *)
Variable Time : Type.
(** The authorisation callable handed to the cache; never called here. *)
Variable Auth : Type.

(** What pulpcore's cache constructor records on the instance. *)
Record Cache : Type := mkCache {
  base_key : option string;
  expires_ttl : option Time;
  keys : list string;
  auth : option Auth
}.

(** [RegistryCache.__init__] *)
Definition RegistryCache_init
    (base_key : option string) (expires_ttl : option Time)
    (auth : option Auth) : Cache :=
  let updated_keys := [CacheKeys.path; CacheKeys.method; ACCEPT_HEADER_KEY] in
  mkCache base_key expires_ttl updated_keys auth.

(** [FlatpakIndexStaticCache.__init__] *)
Definition FlatpakIndexStaticCache_init
    (expires_ttl : option Time) (auth : option Auth) : Cache :=
  let updated_keys := [QUERY_KEY] in
  mkCache (Some "/index/static") expires_ttl updated_keys auth.

(** [":".join(all_keys[k] for k in self.keys)]; [all_keys[k]] raises
    [KeyError] for a name that is not in the dict. *)
Fixpoint select_keys (all_keys : gmap string string) (ks : list string)
  : Exn + list string :=
  match ks with
  | [] => inr []
  | k :: ks' =>
      match all_keys !! k with
      | None => inl (KeyError k)
      | Some v =>
          match select_keys all_keys ks' with
          | inl e => inl e
          | inr vs => inr (v :: vs)
          end
      end
  end.

Definition join_keys (all_keys : gmap string string) (self : Cache)
  : Exn + string :=
  match select_keys all_keys (keys self) with
  | inl e => inl e
  | inr vs => inr (Py.join ":" vs)
  end.

(** *** The content app (aiohttp requests) *)

Record AioRequest : Type := mkAioRequest {
  aio_path : string;
  aio_method : string;
  aio_url_host : string;
  aio_headers : Headers.t
}.

(** The normalised accept header of [RegistryContentCache.make_key]. *)
Definition aio_accept_header (request : AioRequest) : string :=
  Py.join "," (Py.sorted (Headers.getall "accept" [] (aio_headers request))).

(** [RegistryContentCache.make_key] *)
Definition RegistryContentCache_make_key
    (self : Cache) (request : AioRequest) : Exn + string :=
  let accept_header := aio_accept_header request in
  let all_keys : gmap string string :=
    <[ACCEPT_HEADER_KEY := accept_header]>
      (<[CacheKeys.host := aio_url_host request]>
         (<[CacheKeys.method := aio_method request]>
            (<[CacheKeys.path := aio_path request]> ∅))) in
  join_keys all_keys self.

(** *** The registry API (Django requests) *)

(** [urlencode] is [QueryDict.urlencode] of Django. *)
Variable urlencode : list (string * string) → string.

Record DjangoRequest : Type := mkDjangoRequest {
  dj_path : string;
  dj_method : string;
  dj_get_host : string;
  dj_headers : Headers.t;
  dj_query_params : list (string * string);
  dj_resolver_match_kwargs : gmap string string
}.

(** [RegistryApiCache.make_key] *)
Definition RegistryApiCache_make_key
    (self : Cache) (request : DjangoRequest) : Exn + string :=
  let all_keys : gmap string string :=
    <[ACCEPT_HEADER_KEY :=
        default "" (Headers.get "accept" (dj_headers request))]>
      (<[CacheKeys.host := dj_get_host request]>
         (<[CacheKeys.method := dj_method request]>
            (<[CacheKeys.path := dj_path request]> ∅))) in
  join_keys all_keys self.

(** [FlatpakIndexStaticCache.make_key] *)
Definition FlatpakIndexStaticCache_make_key
    (self : Cache) (request : DjangoRequest) : Exn + string :=
  let all_keys : gmap string string :=
    <[QUERY_KEY := urlencode (dj_query_params request)]> ∅ in
  join_keys all_keys self.

End Caches.

Arguments mkCache {Time Auth}.
Arguments base_key {Time Auth}.
Arguments expires_ttl {Time Auth}.
Arguments keys {Time Auth}.
Arguments auth {Time Auth}.
Arguments RegistryCache_init {Time Auth}.
Arguments FlatpakIndexStaticCache_init {Time Auth}.
Arguments join_keys {Time Auth}.
Arguments RegistryContentCache_make_key {Time Auth}.
Arguments RegistryApiCache_make_key {Time Auth}.
Arguments FlatpakIndexStaticCache_make_key {Time Auth}.

(** ** A state-and-exception monad

    [M S A] is a Python statement sequence running on the mutable objects
    [S]: it either returns a value or raises, and in both cases leaves the
    objects in the state its assignments produced. *)

Definition M (S A : Type) : Type := S → (Exn + A) * S.

Definition ret {S A} (a : A) : M S A := fun s => (inr a, s).

Definition raise {S A} (e : Exn) : M S A := fun s => (inl e, s).

Definition bind {S A B} (m : M S A) (k : A → M S B) : M S B :=
  fun s =>
    match m s with
    | (inl e, s') => (inl e, s')
    | (inr a, s') => k a s'
    end.

Definition try_except {S A} (m : M S A) (handler : Exn → M S A) : M S A :=
  fun s =>
    match m s with
    | (inl e, s') => handler e s'
    | (inr a, s') => (inr a, s')
    end.

Definition get_state {S} : M S S := fun s => (inr s, s).

Definition modify {S} (f : S → S) : M S unit := fun s => (inr tt, f s).

Definition lift {S A} (r : Exn + A) : M S A := fun s => (r, s).

Declare Scope py_scope.
Delimit Scope py_scope with py.
Notation "x <- m ;; k" := (bind m (fun x => k))
  (at level 100, m at next level, right associativity) : py_scope.
Notation "m ;;; k" := (bind m (fun _ => k))
  (at level 100, right associativity) : py_scope.

(** ** The backing store *)

Section Store.

Variable Time : Type.

(** Modelled from the spec: the backing store adapter of pulpcore
    ([set], [exists], [invalidate] of section 6), which is not part of
    this module. A partition per base key; in it, the value and the TTL
    given to [set] under each key. *)
Definition Store : Type := gmap string (gmap string (string * option Time)).

Definition store_set (key value : string) (ttl : option Time)
    (base_key : string) (s : Store) : Store :=
  <[base_key := <[key := (value, ttl)]> (default ∅ (s !! base_key))]> s.

Definition store_exists (base_key : string) (s : Store) : bool :=
  bool_decide (is_Some (s !! base_key)).

Definition store_invalidate (base_key : string) (s : Store) : Store :=
  delete base_key s.

Definition store_get (key base_key : string) (s : Store) : option string :=
  match s !! base_key with
  | Some partition => fst <$> partition !! key
  | None => None
  end.

End Store.

Arguments store_set {Time}.
Arguments store_exists {Time}.
Arguments store_invalidate {Time}.
Arguments store_get {Time}.

(** ** Responses *)

(** The response classes of Django and of the REST framework that
    [make_entry] tells apart, with their base classes. *)
Inductive Class : Type :=
| HttpResponseBase
| HttpResponse
| HttpResponseRedirect
| StreamingHttpResponse
| ApiFileResponse
| SimpleTemplateResponse
| Response.

Global Instance Class_eq_dec : EqDecision Class.
Proof. solve_decision. Defined.

(** The class itself followed by its bases. *)
Definition mro (c : Class) : list Class :=
  match c with
  | HttpResponseBase => [HttpResponseBase]
  | HttpResponse => [HttpResponse; HttpResponseBase]
  | HttpResponseRedirect => [HttpResponseRedirect; HttpResponse; HttpResponseBase]
  | StreamingHttpResponse => [StreamingHttpResponse; HttpResponseBase]
  | ApiFileResponse => [ApiFileResponse; StreamingHttpResponse; HttpResponseBase]
  | SimpleTemplateResponse => [SimpleTemplateResponse; HttpResponse; HttpResponseBase]
  | Response => [Response; SimpleTemplateResponse; HttpResponse; HttpResponseBase]
  end.

Inductive Renderer : Type :=
| JSONRenderer
| OtherRenderer (name : string).

Record ResponseObj : Type := mkResponse {
  cls : Class;
  headers : Headers.t;
  status_code : Z;
  (** [str(response.filename)], read for file responses only *)
  filename : string;
  (** the body bytes held by the response *)
  body : string;
  (** [_is_rendered] of a template response *)
  is_rendered : bool;
  accepted_renderer : option Renderer;
  accepted_media_type : option string;
  content_type : option string;
  renderer_context : option (list (string * string))
}.

Definition isinstance (r : ResponseObj) (c : Class) : bool :=
  bool_decide (c ∈ mro (cls r)).

Definition with_headers (h : Headers.t) (r : ResponseObj) : ResponseObj :=
  mkResponse (cls r) h (status_code r) (filename r) (body r) (is_rendered r)
    (accepted_renderer r) (accepted_media_type r) (content_type r)
    (renderer_context r).

Definition with_accepted_renderer (x : Renderer) (r : ResponseObj) : ResponseObj :=
  mkResponse (cls r) (headers r) (status_code r) (filename r) (body r)
    (is_rendered r) (Some x) (accepted_media_type r) (content_type r)
    (renderer_context r).

Definition with_accepted_media_type (x : string) (r : ResponseObj) : ResponseObj :=
  mkResponse (cls r) (headers r) (status_code r) (filename r) (body r)
    (is_rendered r) (accepted_renderer r) (Some x) (content_type r)
    (renderer_context r).

Definition with_content_type (x : string) (r : ResponseObj) : ResponseObj :=
  mkResponse (cls r) (headers r) (status_code r) (filename r) (body r)
    (is_rendered r) (accepted_renderer r) (accepted_media_type r) (Some x)
    (renderer_context r).

Definition with_renderer_context (x : list (string * string)) (r : ResponseObj)
  : ResponseObj :=
  mkResponse (cls r) (headers r) (status_code r) (filename r) (body r)
    (is_rendered r) (accepted_renderer r) (accepted_media_type r)
    (content_type r) (Some x).

(** The [content] property. A template response that was not rendered
    refuses to give its content. *)
Definition response_content (r : ResponseObj) : Exn + string :=
  if isinstance r SimpleTemplateResponse && negb (is_rendered r)
  then inl ContentNotRenderedError
  else inr (body r).

(** The responses one of the four branches of [make_entry] takes. *)
Definition cacheable (r : ResponseObj) : bool :=
  isinstance r HttpResponseRedirect || isinstance r ApiFileResponse
  || isinstance r Response || isinstance r HttpResponse.

(** The rendering attributes of a response of the REST framework. *)
Definition rendering_state (r : ResponseObj)
  : option Renderer * option string * option string
    * option (list (string * string)) :=
  (accepted_renderer r, accepted_media_type r, content_type r,
   renderer_context r).

(** ** The entry codec: [RegistryApiCache.make_entry] *)

(** The values [make_entry] puts into the entry dict. *)
Inductive Json (Time : Type) : Type :=
| JNull
| JInt (n : Z)
| JFloat (t : Time)
| JStr (s : string)
| JDict (d : list (string * string)).

Arguments JNull {Time}.
Arguments JInt {Time}.
Arguments JFloat {Time}.
Arguments JStr {Time}.
Arguments JDict {Time}.

Section EntryCodec.

Variable Time : Type.
Variable Auth : Type.
(** [+] on seconds *)
Variable time_add : Time → Time → Time.
(** [json.dumps] *)
Variable json_dumps : gmap string (Json Time) → string.
(** [bytes.decode("utf-8")]; [None] is [UnicodeDecodeError] *)
Variable decode_utf8 : string → option string.
(** the positional and keyword arguments of the handler *)
Variable Args Kwargs : Type.

(** The objects [make_entry] reads and writes: the response the handler
    returned, the backing store and the reading of [time.time()]. *)
Record Objects : Type := mkObjects {
  live : ResponseObj;
  store : Store Time;
  clock : Time
}.

Definition get_live : M Objects ResponseObj :=
  fun s => (inr (live s), s).

Definition modify_live (f : ResponseObj → ResponseObj) : M Objects unit :=
  modify (fun s => mkObjects (f (live s)) (store s) (clock s)).

Definition time_time : M Objects Time :=
  fun s => (inr (clock s), s).

(** [self.set(key, value, expires, base_key=base_key)] *)
Definition cache_set (key value : string) (expires : option Time)
    (base_key : string) : M Objects unit :=
  modify (fun s =>
    mkObjects (live s) (store_set key value expires base_key (store s))
      (clock s)).

Definition decode (b : string) : M Objects string :=
  match decode_utf8 b with
  | Some text => ret text
  | None => raise UnicodeDecodeError
  end.

(** The statements of [make_entry] after the handler has returned. *)
Definition make_entry_body (self : Cache Time Auth) (key base_key : string)
    (expires : option Time) : M Objects ResponseObj :=
  (response <- get_live ;;
   let entry : gmap string (Json Time) :=
     <["status" := JInt (status_code response)]>
       (<["headers" := JDict (Headers.to_dict (headers response))]> ∅) in
   entry <- match expires with
            | Some ttl =>
                now <- time_time ;;
                ret (<["expires" := JFloat (time_add ttl now)]> entry)
            | None => ret (<["expires" := JNull]> entry)
            end ;;
   modify_live (fun r =>
     with_headers (Headers.setitem "X-PULP-CACHE" "MISS" (headers r)) r) ;;;
   response <- get_live ;;
   entry <-
     (if isinstance response HttpResponseRedirect then
        location <- lift (Headers.getitem "Location" (headers response)) ;;
        let entry := <["redirect_to" := JStr location]> entry in
        ret (Some (<["type" := JStr "Redirect"]> entry))
      else if isinstance response ApiFileResponse then
        let entry := <["path" := JStr (filename response)]> entry in
        ret (Some (<["type" := JStr "FileResponse"]> entry))
      else if isinstance response Response then
        modify_live (with_accepted_renderer JSONRenderer) ;;;
        modify_live (with_accepted_media_type "application/json") ;;;
        ct <- lift (Headers.getitem "Content-Type" (headers response)) ;;
        modify_live (with_content_type ct) ;;;
        modify_live (with_renderer_context []) ;;;
        (* the call of response.render() is commented out in the source *)
        response <- get_live ;;
        content <- lift (response_content response) ;;
        text <- decode content ;;
        let entry := <["content" := JStr text]> entry in
        ret (Some (<["type" := JStr "Response"]> entry))
      else if isinstance response HttpResponse then
        content <- lift (response_content response) ;;
        text <- decode content ;;
        let entry := <["content" := JStr text]> entry in
        ret (Some (<["type" := JStr "Response"]> entry))
      else
        (* We don't cache StreamResponses or errors *)
        ret None) ;;
   match entry with
   | None => get_live
   | Some entry =>
       cache_set key (json_dumps entry) expires base_key ;;;
       get_live
   end)%py.

(** [make_entry]: the handler is called, its response becomes the live
    object. The result is the returned response or the exception, and
    the objects as the call leaves them. *)
Definition make_entry (self : Cache Time Auth) (key base_key : string)
    (handler : Args → Kwargs → ResponseObj) (args : Args) (kwargs : Kwargs)
    (expires : option Time) (s : Store Time) (now : Time)
  : (Exn + ResponseObj) * Objects :=
  let response := handler args kwargs in
  make_entry_body self key base_key expires (mkObjects response s now).

(** The entry dict [make_entry] passes to [json.dumps] for a response,
    when it gets that far. *)
Definition entry_of (expires : option Time) (now : Time) (r : ResponseObj)
    (payload : string) (value : string) (type : string)
  : gmap string (Json Time) :=
  <["type" := JStr type]>
    (<[payload := JStr value]>
       (<["expires" := match expires with
                       | Some ttl => JFloat (time_add ttl now)
                       | None => JNull
                       end]>
          (<["status" := JInt (status_code r)]>
             (<["headers" := JDict (Headers.to_dict (headers r))]> ∅)))).

End EntryCodec.

Arguments mkObjects {Time}.
Arguments live {Time}.
Arguments store {Time}.
Arguments clock {Time}.
Arguments make_entry {Time Auth} time_add json_dumps decode_utf8 {Args Kwargs}.
Arguments make_entry_body {Time Auth}.
Arguments entry_of {Time}.

(** ** The resolver: [find_base_path_cached] *)

(** A row of the distribution tables: the two columns the resolver uses. *)
Record Distribution : Type := mkDistribution {
  base_path : string;
  pulp_domain : string
}.

(** What the resolver asks of the backing store and of the database. *)
Inductive Query : Type :=
| CachedExists (base_key : string)
| ContainerDistributionGet (base_path domain : string)
| PullThroughFilterFirst (path domain : string).

Section Resolver.

Variable Time : Type.
(** pulpcore's [cache_key]: the base key of a base path. *)
Variable cache_key : string → string.

(** The surroundings of a call: the cache, the two tables, the domain
    [get_domain()] returns, and the queries made so far. *)
Record World : Type := mkWorld {
  cached : Store Time;
  ContainerDistribution_objects : list Distribution;
  ContainerPullThroughDistribution_objects : list Distribution;
  current_domain : string;
  queries : list Query
}.

Definition log (q : Query) : M World unit :=
  modify (fun w =>
    mkWorld (cached w) (ContainerDistribution_objects w)
      (ContainerPullThroughDistribution_objects w) (current_domain w)
      (queries w ++ [q])).

(** [cached.exists(base_key=base_key)] *)
Definition cached_exists (base_key : string) : M World bool :=
  (log (CachedExists base_key) ;;;
   w <- get_state ;;
   ret (store_exists base_key (cached w)))%py.

Definition get_domain : M World string :=
  fun w => (inr (current_domain w), w).

(** The rows [objects.get(base_path=path, pulp_domain=domain)] matches. *)
Definition exact_matches (path domain : string) (rows : list Distribution)
  : list Distribution :=
  List.filter
    (fun d => bool_decide (base_path d = path)
              && bool_decide (pulp_domain d = domain)) rows.

(** [ContainerDistribution.objects.get(base_path=path, pulp_domain=domain)] *)
Definition ContainerDistribution_get (path domain : string)
  : M World Distribution :=
  (log (ContainerDistributionGet path domain) ;;;
   w <- get_state ;;
   match exact_matches path domain (ContainerDistribution_objects w) with
   | [] => raise ObjectDoesNotExist
   | [d] => ret d
   | _ => raise MultipleObjectsReturned
   end)%py.

(** The rows [.filter(path__startswith=F("base_path"), pulp_domain=domain)]
    keeps, [path] being the annotation [Value(path)]. *)
Definition prefix_matches (path domain : string) (rows : list Distribution)
  : list Distribution :=
  List.filter
    (fun d => Py.startswith path (base_path d)
              && bool_decide (pulp_domain d = domain)) rows.

(** The order of [.order_by("-base_path")]: descending base path,
    strings compared by code point. *)
Definition base_path_desc (d1 d2 : Distribution) : Prop :=
  String.le (base_path d2) (base_path d1).

Global Instance base_path_desc_dec : RelDecision base_path_desc.
Proof. intros d1 d2. unfold base_path_desc. apply _. Defined.

Definition order_by_desc_base_path (rows : list Distribution)
  : list Distribution :=
  merge_sort base_path_desc rows.

(** [ContainerPullThroughDistribution.objects.annotate(path=Value(path))
     .filter(...).order_by("-base_path").first()] *)
Definition PullThrough_filter_first (path domain : string)
  : M World (option Distribution) :=
  (log (PullThroughFilterFirst path domain) ;;;
   w <- get_state ;;
   ret (head (order_by_desc_base_path
                (prefix_matches path domain
                   (ContainerPullThroughDistribution_objects w)))))%py.

Definition find_base_path_cached_body
    (resolver_match_kwargs : gmap string string) : M World string :=
  (path <- match resolver_match_kwargs !! "path" with
           | Some p => ret p
           | None => raise (KeyError "path")
           end ;;
   let base_key := cache_key path in
   path_exists <- cached_exists base_key ;;
   if path_exists : bool then ret base_key
   else
     domain <- get_domain ;;
     distro <-
       try_except (ContainerDistribution_get path domain)
         (fun e =>
            match e with
            | ObjectDoesNotExist =>
                distro <- PullThrough_filter_first path domain ;;
                match distro with
                | None => raise (RepositoryNotFound path)
                | Some d => ret d
                end
            | _ => raise e
            end) ;;
     ret (cache_key (base_path distro)))%py.

End Resolver.

Arguments mkWorld {Time}.
Arguments cached {Time}.
Arguments ContainerDistribution_objects {Time}.
Arguments ContainerPullThroughDistribution_objects {Time}.
Arguments current_domain {Time}.
Arguments queries {Time}.
Arguments exact_matches : clear implicits.
Arguments prefix_matches : clear implicits.
Arguments find_base_path_cached_body {Time}.

(** [find_base_path_cached(request, cached)], run in a world that has made
    no query yet: the returned base key or the exception, and the queries
    the call made. *)
Definition find_base_path_cached {Time : Type}
    (cache_key : string → string)
    (request : DjangoRequest) (cached : Store Time)
    (distributions pull_through : list Distribution) (domain : string)
  : (Exn + string) * list Query :=
  let '(r, w) :=
    find_base_path_cached_body cache_key (dj_resolver_match_kwargs request)
      (mkWorld cached distributions pull_through domain []) in
  (r, queries w).

(** ** Filling the static-index cache *)

(** Modelled from the spec: the miss path of the synchronous orchestrator
    (section 4.5), which is pulpcore's and not part of this module. The
    entry made for a request is stored under the key of the request, in
    the partition of the base key of the cache instance; a request whose
    key cannot be made stores nothing. *)
Definition static_cache_fill {Time Auth : Type}
    (urlencode : list (string * string) → string) (self : Cache Time Auth)
    (misses : list (DjangoRequest * string)) (s : Store Time) : Store Time :=
  foldl
    (fun s miss =>
       match FlatpakIndexStaticCache_make_key urlencode self (fst miss),
             base_key self with
       | inr key, Some bk => store_set key (snd miss) (expires_ttl self) bk s
       | _, _ => s
       end)
    s misses.

(** ** Sample objects *)

(** A cache of the registry API, a serialiser that keeps the type of the
    entry, and a handler for each kind of response used below. *)
Definition api_cache : Cache Z unit :=
  RegistryCache_init None (Some 600) None.

Definition dumps_type (entry : gmap string (Json Z)) : string :=
  match entry !! "type" with
  | Some (JStr type) => type
  | _ => ""
  end.

(** A serialiser that keeps the headers of the entry. *)
Definition dumps_headers (entry : gmap string (Json Z)) : string :=
  match entry !! "headers" with
  | Some (JDict d) =>
      Py.join "; "
        (List.map
           (fun kv => String.append (fst kv) (String.append ": " (snd kv))) d)
  | _ => ""
  end.

Definition raw_response : ResponseObj :=
  mkResponse HttpResponse [("Content-Type", "text/plain")] 200 "" "pong"
    false None None None None.

Definition rendered_response : ResponseObj :=
  mkResponse Response [("Content-Type", "text/html; charset=utf-8")] 200 ""
    "{}" true (Some (OtherRenderer "BrowsableAPIRenderer")) None None None.

Definition unrendered_response : ResponseObj :=
  mkResponse Response [("Content-Type", "text/html; charset=utf-8")] 200 ""
    "" false None None None None.

Definition returning (r : ResponseObj) : unit → unit → ResponseObj :=
  fun _ _ => r.

Definition redirect_response : ResponseObj :=
  mkResponse HttpResponseRedirect
    [("Content-Type", "text/html; charset=utf-8");
     ("Location", "https://cdn.example/blob")]
    302 "" "" false None None None None.

Definition redirect_without_location : ResponseObj :=
  mkResponse HttpResponseRedirect
    [("Content-Type", "text/html; charset=utf-8")]
    302 "" "" false None None None None.

Definition file_response : ResponseObj :=
  mkResponse ApiFileResponse [("Content-Type", "application/json")] 200
    "/var/lib/pulp/media/artifact/ab" "" false None None None None.

Definition streaming_response : ResponseObj :=
  mkResponse StreamingHttpResponse [("Content-Type", "text/plain")] 200 ""
    "" false None None None None.

Definition premarked_response : ResponseObj :=
  mkResponse HttpResponse
    [("x-pulp-cache", "HIT"); ("Content-Type", "text/plain")] 200 "" "pong"
    false None None None None.

Definition sample_request (path : string) : DjangoRequest :=
  mkDjangoRequest "/v2/" "GET" "registry" [] [] {["path" := path]}.

(** * Properties *)

(** ** Strings joined by a delimiter *)

Lemma append_nil (b : string) : String.append "" b = b.
Proof. reflexivity. Qed.

Lemma append_cons (x : ascii) (a b : string) :
  String.append (String x a) b = String x (String.append a b).
Proof. reflexivity. Qed.

Lemma append_assoc (a b c : string) :
  String.append (String.append a b) c = String.append a (String.append b c).
Proof.
  induction a as [|x a IH]; [reflexivity|].
  by rewrite !append_cons, IH.
Qed.

Lemma colon_free_cons (c : ascii) (s : string) :
  Py.colon_free (String c s) = true → c ≠ ":"%char ∧ Py.colon_free s = true.
Proof.
  simpl. intros [Hc Hs]%andb_prop. split; [|done].
  intros ->. by rewrite Ascii.eqb_refl in Hc.
Qed.

Lemma colon_free_app_colon (x y : string) :
  Py.colon_free (String.append x (String ":" y)) = false.
Proof.
  induction x as [|c x IH].
  - reflexivity.
  - rewrite append_cons. simpl. rewrite IH. apply andb_false_r.
Qed.

(** The first delimiter is found where the colon-free prefix ends. *)
Lemma split_first (p1 p2 y1 y2 : string) :
  Py.colon_free p1 = true → Py.colon_free p2 = true →
  String.append p1 (String ":" y1) = String.append p2 (String ":" y2) →
  p1 = p2 ∧ y1 = y2.
Proof.
  revert p2. induction p1 as [|c p1 IH]; intros [|d p2] H1 H2 E;
    rewrite ?append_nil, ?append_cons in E.
  - by inversion E.
  - inversion E; subst. apply colon_free_cons in H2 as [? _]. done.
  - inversion E; subst. apply colon_free_cons in H1 as [? _]. done.
  - inversion E; subst.
    apply colon_free_cons in H1 as [_ H1]. apply colon_free_cons in H2 as [_ H2].
    destruct (IH p2 H1 H2) as [-> ->]; done.
Qed.

(** The last delimiter is found where the colon-free suffix starts. *)
Lemma split_last (x1 x2 a1 a2 : string) :
  Py.colon_free a1 = true → Py.colon_free a2 = true →
  String.append x1 (String ":" a1) = String.append x2 (String ":" a2) →
  x1 = x2 ∧ a1 = a2.
Proof.
  intros H1 H2. revert x2.
  induction x1 as [|c x1 IH]; intros [|d x2] E;
    rewrite ?append_nil, ?append_cons in E.
  - by inversion E.
  - inversion E as [[Hc E']]. subst a1.
    by rewrite colon_free_app_colon in H1.
  - inversion E as [[Hc E']]. subst a2.
    by rewrite colon_free_app_colon in H2.
  - inversion E as [[Hc E']]. destruct (IH x2 E') as [-> ->]. done.
Qed.

Lemma join3 (p m a : string) :
  Py.join ":" [p; m; a]
  = String.append p (String ":" (String.append m (String ":" a))).
Proof. reflexivity. Qed.

Lemma join3_assoc (p m a : string) :
  Py.join ":" [p; m; a]
  = String.append (String.append p (String ":" m)) (String ":" a).
Proof. rewrite join3, append_assoc. reflexivity. Qed.

Lemma join3_inj_front (p1 m1 a1 p2 m2 a2 : string) :
  Py.colon_free p1 = true → Py.colon_free p2 = true →
  Py.colon_free m1 = true → Py.colon_free m2 = true →
  Py.join ":" [p1; m1; a1] = Py.join ":" [p2; m2; a2] →
  p1 = p2 ∧ m1 = m2 ∧ a1 = a2.
Proof.
  intros Hp1 Hp2 Hm1 Hm2. rewrite !join3. intros E.
  apply split_first in E as [-> E]; [|done..].
  apply split_first in E as [-> ->]; done.
Qed.

Lemma join3_inj_back (p1 m1 a1 p2 m2 a2 : string) :
  Py.colon_free m1 = true → Py.colon_free m2 = true →
  Py.colon_free a1 = true → Py.colon_free a2 = true →
  Py.join ":" [p1; m1; a1] = Py.join ":" [p2; m2; a2] →
  p1 = p2 ∧ m1 = m2 ∧ a1 = a2.
Proof.
  intros Hm1 Hm2 Ha1 Ha2. rewrite !join3_assoc. intros E.
  apply split_last in E as [E ->]; [|done..].
  apply split_last in E as [-> ->]; done.
Qed.

(** ** Sorting *)

Lemma sorted_Permutation (l1 l2 : list string) :
  l1 ≡ₚ l2 → Py.sorted l1 = Py.sorted l2.
Proof.
  intros HP. unfold Py.sorted.
  apply (Sorted_unique String.le).
  - apply Sorted_merge_sort, _.
  - apply Sorted_merge_sort, _.
  - by rewrite !merge_sort_Permutation.
Qed.

(** ** The keys of the three caches *)

Section KeyFacts.

Context {Time Auth : Type}.
Implicit Types (bk : option string) (ttl : option Time) (au : option Auth).

Lemma content_key_eq bk ttl au (r : AioRequest) :
  RegistryContentCache_make_key (RegistryCache_init bk ttl au) r
  = inr (Py.join ":" [aio_path r; aio_method r; aio_accept_header r]).
Proof. reflexivity. Qed.

Lemma api_key_eq bk ttl au (r : DjangoRequest) :
  RegistryApiCache_make_key (RegistryCache_init bk ttl au) r
  = inr (Py.join ":" [dj_path r; dj_method r;
                      default "" (Headers.get "accept" (dj_headers r))]).
Proof. reflexivity. Qed.

Lemma static_key_eq urlencode ttl au (r : DjangoRequest) :
  FlatpakIndexStaticCache_make_key urlencode
    (FlatpakIndexStaticCache_init ttl au) r
  = inr (urlencode (dj_query_params r)).
Proof. reflexivity. Qed.

End KeyFacts.

(** ** Key derivation *)

(** C1 (amended). The content-serving cache gives two requests with the same
    path, method, host and normalised accept header the same key. Two
    requests that differ in path, method or normalised accept header get
    different keys when their methods contain no [":"] and either their
    paths or their accept headers contain none. *)
Theorem content_key_deterministic_and_separating
    {Time Auth : Type} (bk : option string) (ttl : option Time)
    (au : option Auth) (r1 r2 : AioRequest) :
  let c := RegistryCache_init bk ttl au in
  (aio_path r1 = aio_path r2 → aio_method r1 = aio_method r2 →
   aio_url_host r1 = aio_url_host r2 →
   aio_accept_header r1 = aio_accept_header r2 →
   RegistryContentCache_make_key c r1 = RegistryContentCache_make_key c r2)
  ∧ (Py.colon_free (aio_method r1) = true →
     Py.colon_free (aio_method r2) = true →
     (Py.colon_free (aio_path r1) = true ∧ Py.colon_free (aio_path r2) = true)
     ∨ (Py.colon_free (aio_accept_header r1) = true
        ∧ Py.colon_free (aio_accept_header r2) = true) →
     aio_path r1 ≠ aio_path r2 ∨ aio_method r1 ≠ aio_method r2
     ∨ aio_accept_header r1 ≠ aio_accept_header r2 →
     RegistryContentCache_make_key c r1 ≠ RegistryContentCache_make_key c r2).
Proof.
  intros c. unfold c. rewrite !content_key_eq. split.
  - intros -> -> _ ->. reflexivity.
  - intros Hm1 Hm2 Hfree Hdiff [=E].
    assert (aio_path r1 = aio_path r2 ∧ aio_method r1 = aio_method r2
            ∧ aio_accept_header r1 = aio_accept_header r2) as (Hp & Hm & Ha).
    { destruct Hfree as [[Hp1 Hp2]|[Ha1 Ha2]].
      - by apply join3_inj_front.
      - by apply join3_inj_back. }
    destruct Hdiff as [?|[?|?]]; done.
Qed.

Lemma content_key_deterministic_and_separating_witness :
  let c := RegistryCache_init (Time:=Z) (Auth:=unit) None None None in
  let r1 := mkAioRequest "/v2/r/manifests/sha256:ab" "GET" "registry"
              [("Accept", "b"); ("Accept", "a")] in
  let r2 := mkAioRequest "/v2/r/manifests/sha256:ab" "GET" "registry"
              [("accept", "a"); ("Accept", "b")] in
  let r3 := mkAioRequest "/v2/r/manifests/sha256:ab" "HEAD" "registry"
              [("Accept", "a")] in
  RegistryContentCache_make_key c r1 = RegistryContentCache_make_key c r2
  ∧ RegistryContentCache_make_key c r1 ≠ RegistryContentCache_make_key c r3.
Proof.
  intros c r1 r2 r3. split.
  - apply (content_key_deterministic_and_separating None None None r1 r2);
      reflexivity.
  - apply (content_key_deterministic_and_separating None None None r1 r3).
    + reflexivity.
    + reflexivity.
    + right. split; reflexivity.
    + right. left. discriminate.
Defined.

(** C1, as stated, fails: the key leaves the host out, and the join does
    not escape the delimiter. Two requests that differ only in host, and
    two requests that differ in path and accept header, share a key. *)
Lemma content_key_collisions :
  let c := RegistryCache_init (Time:=Z) (Auth:=unit) None None None in
  let r1 := mkAioRequest "/v2/r/manifests/t:GET" "GET" "registry"
              [("Accept", "x")] in
  let r2 := mkAioRequest "/v2/r/manifests/t" "GET" "registry"
              [("Accept", "GET:x")] in
  let r3 := mkAioRequest "/v2/r/manifests/t" "GET" "mirror"
              [("Accept", "GET:x")] in
  (aio_path r1 ≠ aio_path r2
   ∧ RegistryContentCache_make_key c r1 = RegistryContentCache_make_key c r2)
  ∧ (aio_url_host r2 ≠ aio_url_host r3
     ∧ RegistryContentCache_make_key c r2 = RegistryContentCache_make_key c r3).
Proof. repeat split; (discriminate || reflexivity). Qed.

(** C5 (amended). The content-serving cache sorts the accept values of a
    request and joins them with commas, so two requests whose accept
    values are a permutation of each other, and that agree on path, method
    and host, get the same key. The structured-API cache takes the accept
    header as the one string Django gives, unsorted. *)
Theorem accept_order_independence
    {Time Auth : Type} (bk : option string) (ttl : option Time)
    (au : option Auth) :
  let c := RegistryCache_init bk ttl au in
  (∀ r : AioRequest,
     let values := Headers.getall "accept" [] (aio_headers r) in
     RegistryContentCache_make_key c r
     = inr (Py.join ":" [aio_path r; aio_method r;
                         Py.join "," (Py.sorted values)])
     ∧ Sorted String.le (Py.sorted values) ∧ Py.sorted values ≡ₚ values)
  ∧ (∀ r1 r2 : AioRequest,
       aio_path r1 = aio_path r2 → aio_method r1 = aio_method r2 →
       aio_url_host r1 = aio_url_host r2 →
       Headers.getall "accept" [] (aio_headers r1)
       ≡ₚ Headers.getall "accept" [] (aio_headers r2) →
       RegistryContentCache_make_key c r1 = RegistryContentCache_make_key c r2)
  ∧ (∀ r : DjangoRequest,
       RegistryApiCache_make_key c r
       = inr (Py.join ":" [dj_path r; dj_method r;
                           default "" (Headers.get "accept" (dj_headers r))])).
Proof.
  intros c. unfold c. split; [|split].
  - intros r. cbv zeta. split; [apply content_key_eq|]. split.
    + apply Sorted_merge_sort, _.
    + apply merge_sort_Permutation.
  - intros r1 r2 Hp Hm _ HP. rewrite !content_key_eq.
    unfold aio_accept_header. by rewrite Hp, Hm, (sorted_Permutation _ _ HP).
  - intros r. apply api_key_eq.
Qed.

Lemma accept_order_independence_witness :
  let c := RegistryCache_init (Time:=Z) (Auth:=unit) None None None in
  RegistryContentCache_make_key c
    (mkAioRequest "/v2/r/manifests/t" "GET" "registry"
       [("Accept", "a"); ("Accept", "b")])
  = RegistryContentCache_make_key c
      (mkAioRequest "/v2/r/manifests/t" "GET" "registry"
         [("Accept", "b"); ("Accept", "a")]).
Proof.
  intros c.
  apply (proj1 (proj2 (accept_order_independence None None None)));
    try reflexivity.
  apply Permutation_swap.
Defined.

(** C5, as stated, fails for the structured-API cache: the accept values
    [a] and [b] sent as two headers reach Django joined in arrival order,
    and the two orders give two keys. *)
Lemma api_key_depends_on_accept_order :
  let c := RegistryCache_init (Time:=Z) (Auth:=unit) None None None in
  let r1 := mkDjangoRequest "/v2/r/manifests/t" "GET" "registry"
              [("Accept", "a,b")] [] ∅ in
  let r2 := mkDjangoRequest "/v2/r/manifests/t" "GET" "registry"
              [("Accept", "b,a")] [] ∅ in
  RegistryApiCache_make_key c r1 = inr "/v2/r/manifests/t:GET:a,b"
  ∧ RegistryApiCache_make_key c r2 = inr "/v2/r/manifests/t:GET:b,a"
  ∧ RegistryApiCache_make_key c r1 ≠ RegistryApiCache_make_key c r2.
Proof. repeat split. discriminate. Qed.

(** ** The partition of the static-index cache *)

Section StoreFacts.

Context {Time : Type}.
Implicit Types (s : Store Time) (ttl : option Time).

Lemma store_get_set_eq key value ttl bk s :
  store_get key bk (store_set key value ttl bk s) = Some value.
Proof.
  unfold store_get, store_set, Store in *. rewrite lookup_insert_eq.
  simpl. by rewrite lookup_insert_eq.
Qed.

Lemma store_get_set_keeps key key' value ttl bk bk' s :
  is_Some (store_get key bk s) →
  is_Some (store_get key bk (store_set key' value ttl bk' s)).
Proof.
  unfold store_get, store_set, Store in *. intros Hs.
  destruct (decide (bk' = bk)) as [->|Hne].
  - rewrite lookup_insert_eq.
    destruct (s !! bk) as [partition|] eqn:Hbk; [|by destruct Hs].
    simpl in *. destruct (decide (key' = key)) as [->|Hk].
    + rewrite lookup_insert_eq. by eexists.
    + by rewrite lookup_insert_ne.
  - by rewrite lookup_insert_ne.
Qed.

Lemma store_set_other key value ttl bk bk' s :
  bk ≠ bk' → store_set key value ttl bk s !! bk' = s !! bk'.
Proof. intros Hne. unfold store_set, Store in *. by rewrite lookup_insert_ne. Qed.

Lemma store_exists_set key value ttl bk s :
  store_exists bk (store_set key value ttl bk s) = true.
Proof.
  unfold store_exists, store_set, Store in *. rewrite lookup_insert_eq.
  apply bool_decide_eq_true. by eexists.
Qed.

Lemma store_get_invalidate key bk s :
  store_get key bk (store_invalidate bk s) = None.
Proof.
  unfold store_get, store_invalidate, Store in *. by rewrite lookup_delete_eq.
Qed.

End StoreFacts.

Section StaticFill.

Context {Time Auth : Type}.
Variable urlencode : list (string * string) → string.
Variables (ttl : option Time) (au : option Auth).

Let c : Cache Time Auth := FlatpakIndexStaticCache_init ttl au.

Lemma static_fill_cons (r : DjangoRequest) (v : string) misses (s : Store Time) :
  static_cache_fill urlencode c ((r, v) :: misses) s
  = static_cache_fill urlencode c misses
      (store_set (urlencode (dj_query_params r)) v ttl "/index/static" s).
Proof. reflexivity. Qed.

Lemma static_fill_keeps key misses (s : Store Time) :
  is_Some (store_get key "/index/static" s) →
  is_Some (store_get key "/index/static" (static_cache_fill urlencode c misses s)).
Proof.
  revert s. induction misses as [|[r v] misses IH]; intros s Hs; [done|].
  rewrite static_fill_cons. by apply IH, store_get_set_keeps.
Qed.

Lemma static_fill_stored misses (s : Store Time) r v :
  (r, v) ∈ misses →
  is_Some (store_get (urlencode (dj_query_params r)) "/index/static"
             (static_cache_fill urlencode c misses s)).
Proof.
  revert s. induction misses as [|[r' v'] misses IH]; intros s Hin.
  - by apply elem_of_nil in Hin.
  - rewrite static_fill_cons. apply elem_of_cons in Hin as [[= -> ->]|Hin].
    + apply static_fill_keeps. rewrite store_get_set_eq. by eexists.
    + by apply IH.
Qed.

Lemma static_fill_other misses (s : Store Time) bk :
  bk ≠ "/index/static" →
  static_cache_fill urlencode c misses s !! bk = s !! bk.
Proof.
  intros Hne. revert s.
  induction misses as [|[r v] misses IH]; intros s; [done|].
  rewrite static_fill_cons, IH. by apply store_set_other.
Qed.

Lemma static_fill_invalidate misses (s : Store Time) :
  store_invalidate "/index/static" (static_cache_fill urlencode c misses s)
  = store_invalidate "/index/static" s.
Proof.
  unfold store_invalidate, Store in *. apply map_eq. intros bk.
  destruct (decide (bk = "/index/static")) as [->|Hne].
  - by rewrite !lookup_delete_eq.
  - rewrite !lookup_delete_ne by done. by apply static_fill_other.
Qed.

End StaticFill.

(** C10. The static-index cache has the base key ["/index/static"] and
    makes the key of a request from its urlencoded query string alone:
    requests with equal query strings get equal keys. Every entry the
    cache stores lies in the partition of that base key and nowhere else,
    and invalidating the base key leaves the store as if nothing had been
    stored. *)
Theorem static_index_key_and_partition
    {Time Auth : Type} (urlencode : list (string * string) → string)
    (ttl : option Time) (au : option Auth) :
  let c : Cache Time Auth := FlatpakIndexStaticCache_init ttl au in
  base_key c = Some "/index/static"
  ∧ (∀ r, FlatpakIndexStaticCache_make_key urlencode c r
          = inr (urlencode (dj_query_params r)))
  ∧ (∀ r1 r2,
       urlencode (dj_query_params r1) = urlencode (dj_query_params r2) →
       FlatpakIndexStaticCache_make_key urlencode c r1
       = FlatpakIndexStaticCache_make_key urlencode c r2)
  ∧ (∀ misses (s : Store Time),
       let s' := static_cache_fill urlencode c misses s in
       (∀ r v, (r, v) ∈ misses →
          is_Some (store_get (urlencode (dj_query_params r)) "/index/static" s'))
       ∧ (∀ bk, bk ≠ "/index/static" → s' !! bk = s !! bk)
       ∧ store_invalidate "/index/static" s'
         = store_invalidate "/index/static" s
       ∧ (∀ key, store_get key "/index/static"
                   (store_invalidate "/index/static" s') = None)).
Proof.
  intros c. split; [reflexivity|]. split; [intros r; apply static_key_eq|].
  split.
  - intros r1 r2 E. unfold c. by rewrite !static_key_eq, E.
  - intros misses s s'. repeat split.
    + intros r v. apply static_fill_stored.
    + intros bk. apply static_fill_other.
    + apply static_fill_invalidate.
    + intros key. apply store_get_invalidate.
Qed.

Lemma static_index_key_and_partition_witness :
  let urlencode := fun q : list (string * string) =>
    Py.join "&" (List.map (fun kv => String.append (fst kv)
                                       (String.append "=" (snd kv))) q) in
  let c := FlatpakIndexStaticCache_init (Time:=Z) (Auth:=unit) (Some 600) None in
  let r1 := mkDjangoRequest "/index/static" "GET" "registry"
              [("Accept", "application/json")] [("label", "x")] ∅ in
  let r2 := mkDjangoRequest "/pulp/other" "HEAD" "mirror" []
              [("label", "x")] ∅ in
  FlatpakIndexStaticCache_make_key urlencode c r1
  = FlatpakIndexStaticCache_make_key urlencode c r2
  ∧ is_Some (store_get "label=x" "/index/static"
               (static_cache_fill urlencode c [(r1, "entry")] ∅)).
Proof.
  intros urlencode c r1 r2.
  pose proof (static_index_key_and_partition (Time:=Z) (Auth:=unit)
                urlencode (Some 600) None) as (_ & _ & Hkey & Hfill).
  split.
  - apply Hkey. reflexivity.
  - apply (proj1 (Hfill [(r1, "entry")] ∅) r1 "entry"). apply list_elem_of_here.
Defined.

(** ** The resolver *)

Global Instance base_path_desc_trans : Transitive base_path_desc.
Proof.
  intros d1 d2 d3 H12 H23. unfold base_path_desc in *. by etrans.
Qed.

Global Instance base_path_desc_total : Total base_path_desc.
Proof.
  intros d1 d2. unfold base_path_desc.
  destruct (total String.le (base_path d1) (base_path d2)); auto.
Qed.

Lemma elem_of_exact_matches path domain rows d :
  d ∈ exact_matches path domain rows
  ↔ d ∈ rows ∧ base_path d = path ∧ pulp_domain d = domain.
Proof.
  unfold exact_matches. rewrite !list_elem_of_In, filter_In.
  rewrite andb_true_iff, !bool_decide_eq_true. tauto.
Qed.

Lemma elem_of_prefix_matches path domain rows d :
  d ∈ prefix_matches path domain rows
  ↔ d ∈ rows ∧ Py.startswith path (base_path d) = true
    ∧ pulp_domain d = domain.
Proof.
  unfold prefix_matches. rewrite !list_elem_of_In, filter_In.
  rewrite andb_true_iff, !bool_decide_eq_true. tauto.
Qed.

Lemma exact_matches_nil path domain rows :
  exact_matches path domain rows = []
  ↔ ∀ d, d ∈ rows → pulp_domain d = domain → base_path d ≠ path.
Proof.
  split.
  - intros E d Hd Hdom Hp.
    assert (d ∈ exact_matches path domain rows) as Hin
      by by apply elem_of_exact_matches.
    rewrite E in Hin. by apply elem_of_nil in Hin.
  - intros H. destruct (exact_matches path domain rows) as [|d l] eqn:E; [done|].
    assert (d ∈ exact_matches path domain rows) as Hin
      by (rewrite E; apply list_elem_of_here).
    apply elem_of_exact_matches in Hin as (Hd & Hp & Hdom).
    by destruct (H d Hd Hdom).
Qed.

Lemma prefix_matches_nil path domain rows :
  prefix_matches path domain rows = []
  ↔ ∀ d, d ∈ rows → pulp_domain d = domain →
         Py.startswith path (base_path d) = false.
Proof.
  split.
  - intros E d Hd Hdom.
    destruct (Py.startswith path (base_path d)) eqn:Hp; [|done].
    assert (d ∈ prefix_matches path domain rows) as Hin
      by by apply elem_of_prefix_matches.
    rewrite E in Hin. by apply elem_of_nil in Hin.
  - intros H. destruct (prefix_matches path domain rows) as [|d l] eqn:E; [done|].
    assert (d ∈ prefix_matches path domain rows) as Hin
      by (rewrite E; apply list_elem_of_here).
    apply elem_of_prefix_matches in Hin as (Hd & Hp & Hdom).
    by rewrite (H d Hd Hdom) in Hp.
Qed.

(** The first row of the descending order is a row of the table, and no
    row has a greater base path. *)
Lemma head_order_by_desc rows d :
  head (order_by_desc_base_path rows) = Some d →
  d ∈ rows ∧ ∀ d', d' ∈ rows → String.le (base_path d') (base_path d).
Proof.
  unfold order_by_desc_base_path. intros Hhd.
  pose proof (StronglySorted_merge_sort base_path_desc rows) as Hs.
  pose proof (merge_sort_Permutation base_path_desc rows) as HP.
  destruct (merge_sort base_path_desc rows) as [|d0 l]; simplify_eq/=.
  split.
  - rewrite <- HP. apply list_elem_of_here.
  - intros d' Hd'. rewrite <- HP in Hd'.
    apply elem_of_cons in Hd' as [->|Hd']; [done|].
    apply StronglySorted_inv in Hs as [_ Hall].
    rewrite Forall_forall in Hall. by apply Hall.
Qed.

Lemma head_order_by_desc_None rows :
  head (order_by_desc_base_path rows) = None ↔ rows = [].
Proof.
  unfold order_by_desc_base_path.
  pose proof (merge_sort_Permutation base_path_desc rows) as HP.
  split.
  - intros Hhd. destruct (merge_sort base_path_desc rows); [|done].
    by apply Permutation_nil_l in HP.
  - intros ->. reflexivity.
Qed.

(** The resolver, case by case. *)
Lemma find_base_path_cached_eq {Time : Type} (cache_key : string → string)
    (request : DjangoRequest) (path : string) (cached : Store Time)
    (distributions pull_through : list Distribution) (domain : string) :
  dj_resolver_match_kwargs request !! "path" = Some path →
  find_base_path_cached cache_key request cached distributions pull_through
    domain
  = if store_exists (cache_key path) cached
    then (inr (cache_key path), [CachedExists (cache_key path)])
    else
      match exact_matches path domain distributions with
      | [] =>
          (match head (order_by_desc_base_path
                         (prefix_matches path domain pull_through)) with
           | None => inl (RepositoryNotFound path)
           | Some d => inr (cache_key (base_path d))
           end,
           [CachedExists (cache_key path);
            ContainerDistributionGet path domain;
            PullThroughFilterFirst path domain])
      | [d] =>
          (inr (cache_key (base_path d)),
           [CachedExists (cache_key path);
            ContainerDistributionGet path domain])
      | _ =>
          (inl MultipleObjectsReturned,
           [CachedExists (cache_key path);
            ContainerDistributionGet path domain])
      end.
Proof.
  intros Hpath.
  unfold find_base_path_cached, find_base_path_cached_body.
  rewrite Hpath.
  unfold bind, ret, cached_exists, log, modify, get_state, bind, ret; simpl.
  destruct (store_exists (cache_key path) cached); [reflexivity|].
  unfold try_except, ContainerDistribution_get, get_domain, bind, log, modify,
    get_state, ret, raise; simpl.
  destruct (exact_matches path domain distributions) as [|d [|d' l]];
    [|reflexivity..].
  unfold PullThrough_filter_first, bind, log, modify, get_state, ret; simpl.
  destruct (head _); reflexivity.
Qed.

Section ResolverClaims.

Context {Time : Type}.
Variable cache_key : string → string.
Implicit Types (request : DjangoRequest) (cached : Store Time).
Implicit Types (distributions pull_through : list Distribution).

(** C7. When the backing store holds a partition under the base key of
    the request path, the resolver returns that base key after the one
    query of the store: whatever the two tables hold, it asks neither
    for an exact distribution nor for a pull-through one. *)
Theorem cached_partition_short_circuit
    request path cached distributions pull_through domain :
  dj_resolver_match_kwargs request !! "path" = Some path →
  store_exists (cache_key path) cached = true →
  find_base_path_cached cache_key request cached distributions
    pull_through domain
  = (inr (cache_key path), [CachedExists (cache_key path)]).
Proof.
  intros Hpath Hex.
  by rewrite (find_base_path_cached_eq _ _ path), Hex.
Qed.

(** C2 (amended). When the backing store holds no partition under the
    base key of the request path, no distribution of the domain has the
    path as its base path, and some pull-through distribution of the
    domain has a base path that is a prefix of the path, the resolver
    returns the base key of such a pull-through distribution whose base
    path is the greatest of all of them. *)
Theorem pull_through_greatest_prefix
    request path cached distributions pull_through domain :
  dj_resolver_match_kwargs request !! "path" = Some path →
  store_exists (cache_key path) cached = false →
  (∀ d, d ∈ distributions → pulp_domain d = domain → base_path d ≠ path) →
  (∃ d, d ∈ pull_through ∧ pulp_domain d = domain
        ∧ Py.startswith path (base_path d) = true) →
  ∃ d, fst (find_base_path_cached cache_key request cached distributions
              pull_through domain) = inr (cache_key (base_path d))
       ∧ d ∈ pull_through ∧ pulp_domain d = domain
       ∧ Py.startswith path (base_path d) = true
       ∧ ∀ d', d' ∈ pull_through → pulp_domain d' = domain →
               Py.startswith path (base_path d') = true →
               String.le (base_path d') (base_path d).
Proof.
  intros Hpath Hex Hexact (d0 & Hd0 & Hdom0 & Hpre0).
  rewrite (find_base_path_cached_eq _ _ path), Hex by done.
  apply exact_matches_nil in Hexact. rewrite Hexact. simpl.
  destruct (head _) as [d|] eqn:Hhd.
  - apply head_order_by_desc in Hhd as [Hd Hmax].
    apply elem_of_prefix_matches in Hd as (Hd & Hpre & Hdom).
    exists d. repeat split; try done.
    intros d' Hd' Hdom' Hpre'. apply Hmax.
    by apply elem_of_prefix_matches.
  - apply head_order_by_desc_None in Hhd.
    assert (d0 ∈ prefix_matches path domain pull_through) as Hin
      by by apply elem_of_prefix_matches.
    rewrite Hhd in Hin. by apply elem_of_nil in Hin.
Qed.

(** C3. The resolver raises [RepositoryNotFound] for the request path
    exactly when the backing store holds no partition under the base key
    of the path, no distribution of the domain has the path as its base
    path, and no pull-through distribution of the domain has a base path
    that is a prefix of the path. It raises [RepositoryNotFound] with no
    other name, and raises it after having made each of its three
    queries once. *)
Theorem repository_not_found_iff
    request path cached distributions pull_through domain :
  dj_resolver_match_kwargs request !! "path" = Some path →
  let result := find_base_path_cached cache_key request cached
                  distributions pull_through domain in
  (fst result = inl (RepositoryNotFound path)
   ↔ store_exists (cache_key path) cached = false
     ∧ (∀ d, d ∈ distributions → pulp_domain d = domain →
             base_path d ≠ path)
     ∧ (∀ d, d ∈ pull_through → pulp_domain d = domain →
             Py.startswith path (base_path d) = false))
  ∧ (∀ name, fst result = inl (RepositoryNotFound name) →
       name = path
       ∧ snd result = [CachedExists (cache_key path);
                       ContainerDistributionGet path domain;
                       PullThroughFilterFirst path domain]).
Proof.
  intros Hpath result. unfold result.
  rewrite (find_base_path_cached_eq _ _ path) by done.
  rewrite <- exact_matches_nil, <- prefix_matches_nil,
    <- (head_order_by_desc_None (prefix_matches path domain pull_through)).
  destruct (store_exists (cache_key path) cached).
  { split; [split|]; [done| by intros [? _] | done]. }
  destruct (exact_matches path domain distributions) as [|d [|d' l]].
  - simpl. destruct (head _) as [d|].
    + split; [split|]; [done| by intros (_ & _ & ?) | done].
    + split; [done|]. by intros name [= ->].
  - split; [split|]; [done| by intros (_ & ? & _) | done].
  - split; [split|]; [done| by intros (_ & ? & _) | done].
Qed.

End ResolverClaims.

Lemma cached_partition_short_circuit_witness :
  let request := mkDjangoRequest "/v2/a/b/c/manifests/t" "GET" "registry" [] []
                   {["path" := "a/b/c"]} in
  let cached : Store Z := store_set "k" "entry" None "a/b/c" ∅ in
  find_base_path_cached (fun p => p) request cached
    [] [mkDistribution "a" "default"; mkDistribution "a/b" "default"] "default"
  = (inr "a/b/c", [CachedExists "a/b/c"]).
Proof.
  intros request cached.
  apply (cached_partition_short_circuit (fun p => p) request "a/b/c");
    reflexivity.
Defined.

Lemma pull_through_greatest_prefix_witness :
  let request := mkDjangoRequest "/v2/a/b/c/manifests/t" "GET" "registry" [] []
                   {["path" := "a/b/c"]} in
  let pull_through := [mkDistribution "a" "default";
                       mkDistribution "a/b" "default"] in
  ∃ d, fst (find_base_path_cached (Time:=Z) (fun p => p) request ∅ []
              pull_through "default") = inr (base_path d)
       ∧ d ∈ pull_through ∧ pulp_domain d = "default"
       ∧ Py.startswith "a/b/c" (base_path d) = true
       ∧ ∀ d', d' ∈ pull_through → pulp_domain d' = "default" →
               Py.startswith "a/b/c" (base_path d') = true →
               String.le (base_path d') (base_path d).
Proof.
  intros request pull_through.
  apply (pull_through_greatest_prefix (fun p => p) request "a/b/c").
  - reflexivity.
  - reflexivity.
  - intros d Hd. by apply elem_of_nil in Hd.
  - exists (mkDistribution "a" "default"). split; [apply list_elem_of_here|].
    split; reflexivity.
Defined.

(** The example of the specification: of the pull-through base paths
    ["a"] and ["a/b"], the request path ["a/b/c"] resolves to ["a/b"]. *)
Example pull_through_a_b_c :
  find_base_path_cached (Time:=Z) (fun p => p)
    (mkDjangoRequest "/v2/a/b/c/manifests/t" "GET" "registry" [] []
       {["path" := "a/b/c"]})
    ∅ [] [mkDistribution "a" "default"; mkDistribution "a/b" "default"]
    "default"
  = (inr "a/b",
     [CachedExists "a/b/c"; ContainerDistributionGet "a/b/c" "default";
      PullThroughFilterFirst "a/b/c" "default"]).
Proof. vm_compute. reflexivity. Qed.

(** C2, as stated, fails: with no distribution at ["a/b/c"] and the
    pull-through base paths ["a"] and ["a/b"], a partition left in the
    backing store under the base key of ["a/b/c"] makes the resolver
    return that base key, not the one of ["a/b"]. *)
Lemma stale_partition_preempts_pull_through :
  let request := mkDjangoRequest "/v2/a/b/c/manifests/t" "GET" "registry" [] []
                   {["path" := "a/b/c"]} in
  let cached : Store Z := store_set "k" "entry" None "a/b/c" ∅ in
  let distributions : list Distribution := [] in
  let pull_through := [mkDistribution "a" "default";
                       mkDistribution "a/b" "default"] in
  exact_matches "a/b/c" "default" distributions = []
  ∧ prefix_matches "a/b/c" "default" pull_through = pull_through
  ∧ head (order_by_desc_base_path pull_through)
    = Some (mkDistribution "a/b" "default")
  ∧ fst (find_base_path_cached (fun p => p) request cached distributions
           pull_through "default") = inr "a/b/c"
  ∧ fst (find_base_path_cached (fun p => p) request cached distributions
           pull_through "default") ≠ inr "a/b".
Proof. vm_compute. repeat split. discriminate. Qed.

Lemma repository_not_found_iff_witness :
  let request := mkDjangoRequest "/v2/unknown/repo/manifests/t" "GET"
                   "registry" [] [] {["path" := "unknown/repo"]} in
  fst (find_base_path_cached (Time:=Z) (fun p => p) request ∅
         [mkDistribution "known/repo" "default"]
         [mkDistribution "a" "default"] "default")
  = inl (RepositoryNotFound "unknown/repo").
Proof.
  intros request.
  apply (repository_not_found_iff (Time:=Z) (fun p => p) request "unknown/repo").
  - reflexivity.
  - split; [reflexivity|]. split.
    + intros d [->|Hd]%elem_of_cons _; [discriminate|].
      by apply elem_of_nil in Hd.
    + intros d [->|Hd]%elem_of_cons _; [reflexivity|].
      by apply elem_of_nil in Hd.
Defined.

(** ** The entry codec *)

Lemma same_name_sym (a b : string) :
  Headers.same_name a b = Headers.same_name b a.
Proof. unfold Headers.same_name. apply bool_decide_ext. split; congruence. Qed.

Lemma same_name_trans (a b c : string) :
  Headers.same_name a b = true → Headers.same_name b c = true →
  Headers.same_name a c = true.
Proof.
  unfold Headers.same_name. rewrite !bool_decide_eq_true. congruence.
Qed.

(** A header that was assigned is read back. *)
Lemma get_setitem_eq (name value : string) (h : Headers.t) :
  Headers.get name (Headers.setitem name value h) = Some value.
Proof.
  assert (Headers.same_name name name = true) as Hrefl
    by by apply bool_decide_eq_true.
  induction h as [|[k v] h IH]; simpl.
  - by rewrite Hrefl.
  - destruct (Headers.same_name name k) eqn:Hk; simpl.
    + by rewrite Hrefl.
    + by rewrite Hk.
Qed.

(** Assigning a header leaves the headers of other names as they were. *)
Lemma get_setitem_ne (name name' value : string) (h : Headers.t) :
  Headers.same_name name name' = false →
  Headers.get name (Headers.setitem name' value h) = Headers.get name h.
Proof.
  intros Hne. induction h as [|[k v] h IH]; simpl.
  - by rewrite Hne.
  - destruct (Headers.same_name name' k) eqn:Hk; simpl.
    + rewrite Hne. destruct (Headers.same_name name k) eqn:Hk'; [|done].
      rewrite same_name_sym in Hk.
      by rewrite (same_name_trans _ _ _ Hk' Hk) in Hne.
    + by rewrite IH.
Qed.

Section EntryCodecFacts.

Context {Time Auth Args Kwargs : Type}.
Variable time_add : Time → Time → Time.
Variable json_dumps : gmap string (Json Time) → string.
Variable decode_utf8 : string → option string.
Variable self : Cache Time Auth.
Variables key base_key : string.
Variable handler : Args → Kwargs → ResponseObj.
Variable args : Args.
Variable kwargs : Kwargs.
Variable expires : option Time.
Variable s : Store Time.
Variable now : Time.

Let response : ResponseObj := handler args kwargs.
Let result : (Exn + ResponseObj) * Objects Time :=
  make_entry time_add json_dumps decode_utf8 self key base_key handler args
    kwargs expires s now.

(** The live response once the marker is on it. *)
Let marked : ResponseObj :=
  with_headers (Headers.setitem "X-PULP-CACHE" "MISS" (headers response))
    response.

(** The outcome of a call that gets as far as [self.set]. *)
Let stored (payload value type : string) (r : ResponseObj)
  : (Exn + ResponseObj) * Objects Time :=
  (inr r,
   mkObjects r
     (store_set key
        (json_dumps (entry_of time_add expires now response payload value type))
        expires base_key s)
     now).

(** The outcome of a call that raises or passes the response through. *)
Let unstored (x : Exn + ResponseObj) (r : ResponseObj)
  : (Exn + ResponseObj) * Objects Time :=
  (x, mkObjects r s now).

(** [make_entry], branch by branch. *)
Lemma make_entry_eq :
  result
  = if isinstance response HttpResponseRedirect then
      match Headers.get "Location" (headers marked) with
      | Some location => stored "redirect_to" location "Redirect" marked
      | None => unstored (inl (KeyError "location")) marked
      end
    else if isinstance response ApiFileResponse then
      stored "path" (filename response) "FileResponse" marked
    else if isinstance response Response then
      let r1 := with_accepted_media_type "application/json"
                  (with_accepted_renderer JSONRenderer marked) in
      match Headers.get "Content-Type" (headers marked) with
      | None => unstored (inl (KeyError "content-type")) r1
      | Some ct =>
          let r2 := with_renderer_context [] (with_content_type ct r1) in
          match response_content r2 with
          | inl e => unstored (inl e) r2
          | inr content =>
              match decode_utf8 content with
              | None => unstored (inl UnicodeDecodeError) r2
              | Some text => stored "content" text "Response" r2
              end
          end
      end
    else if isinstance response HttpResponse then
      match response_content marked with
      | inl e => unstored (inl e) marked
      | inr content =>
          match decode_utf8 content with
          | None => unstored (inl UnicodeDecodeError) marked
          | Some text => stored "content" text "Response" marked
          end
      end
    else unstored (inr marked) marked.
Proof.
  unfold result, make_entry, make_entry_body, stored, unstored, entry_of,
    marked.
  fold response.
  unfold isinstance, bind, get_live, time_time, ret, modify_live, modify,
    lift, Headers.getitem, cache_set, raise, decode.
  destruct expires as [ttl|]; simpl.
  all: destruct (bool_decide (HttpResponseRedirect ∈ mro (cls response)));
    [ destruct (Headers.get "Location" _); reflexivity |].
  all: destruct (bool_decide (ApiFileResponse ∈ mro (cls response)));
    [reflexivity|].
  all: destruct (bool_decide (Response ∈ mro (cls response)));
    [ destruct (Headers.get "Content-Type" _) as [ct|]; [|reflexivity];
      simpl; destruct (response_content _) as [e|content]; [reflexivity|];
      simpl; destruct (decode_utf8 content); reflexivity |].
  all: destruct (bool_decide (HttpResponse ∈ mro (cls response)));
    [|reflexivity].
  all: destruct (response_content _) as [e|content]; [reflexivity|];
    simpl; destruct (decode_utf8 content); reflexivity.
Qed.

Lemma entry_of_expires payload value type :
  payload ≠ "expires" →
  entry_of time_add expires now response payload value type !! "expires"
  = Some (match expires with
          | Some ttl => JFloat (time_add ttl now)
          | None => JNull
          end).
Proof.
  intros Hne. unfold entry_of.
  rewrite lookup_insert_ne by done. rewrite lookup_insert_ne by done.
  by rewrite lookup_insert_eq.
Qed.

Lemma entry_of_headers payload value type :
  payload ≠ "headers" →
  entry_of time_add expires now response payload value type !! "headers"
  = Some (JDict (headers response)).
Proof.
  intros Hne. unfold entry_of.
  rewrite lookup_insert_ne by done. rewrite lookup_insert_ne by done.
  rewrite lookup_insert_ne by done. rewrite lookup_insert_ne by done.
  by rewrite lookup_insert_eq.
Qed.

(** A call that returns for a cacheable response has stored one entry,
    and returns the live response with the marker on it. *)
Lemma make_entry_stored r' :
  fst result = inr r' → cacheable response = true →
  ∃ payload value type,
    (payload = "redirect_to" ∨ payload = "path" ∨ payload = "content")
    ∧ snd result
      = mkObjects r'
          (store_set key
             (json_dumps
                (entry_of time_add expires now response payload value type))
             expires base_key s)
          now
    ∧ headers r'
      = Headers.setitem "X-PULP-CACHE" "MISS" (headers response).
Proof.
  rewrite make_entry_eq. unfold cacheable, stored, unstored.
  destruct (isinstance response HttpResponseRedirect).
  { destruct (Headers.get "Location" _) as [location|]; intros [= <-] _;
    exists "redirect_to", location, "Redirect"; auto. }
  destruct (isinstance response ApiFileResponse).
  { intros [= <-] _. exists "path", (filename response), "FileResponse".
    auto. }
  destruct (isinstance response Response).
  { cbv zeta. destruct (Headers.get "Content-Type" _) as [ct|]; [|done].
    destruct (response_content _) as [e|content]; [done|].
    destruct (decode_utf8 content) as [text|]; [|done].
    intros [= <-] _. exists "content", text, "Response". auto. }
  destruct (isinstance response HttpResponse); [|done].
  destruct (response_content _) as [e|content]; [done|].
  destruct (decode_utf8 content) as [text|]; [|done].
  intros [= <-] _. exists "content", text, "Response". auto.
Qed.

(** A call that raises, or that meets a response of no cacheable class,
    stores nothing. *)
Lemma make_entry_unstored :
  (∀ r', fst result ≠ inr r') ∨ cacheable response = false →
  store (snd result) = s.
Proof.
  rewrite make_entry_eq. unfold cacheable, stored, unstored.
  destruct (isinstance response HttpResponseRedirect).
  { destruct (Headers.get "Location" _); [|done].
    intros [H|?]; [by edestruct H | done]. }
  destruct (isinstance response ApiFileResponse).
  { intros [H|?]; [by edestruct H | done]. }
  destruct (isinstance response Response).
  { cbv zeta. destruct (Headers.get "Content-Type" _); [|done].
    destruct (response_content _) as [e|content]; [done|].
    destruct (decode_utf8 content); [|done].
    intros [H|?]; [by edestruct H | done]. }
  destruct (isinstance response HttpResponse); [|done].
  destruct (response_content _) as [e|content]; [done|].
  destruct (decode_utf8 content); [|done].
  intros [H|?]; [by edestruct H | done].
Qed.

(** Whatever the call does, it puts the marker on the live response and
    neither renders it nor touches its body. *)
Lemma make_entry_live :
  let r := live (snd result) in
  headers r = Headers.setitem "X-PULP-CACHE" "MISS" (headers response)
  ∧ is_rendered r = is_rendered response
  ∧ body r = body response
  ∧ ∀ r', fst result = inr r' → r' = r.
Proof.
  cbv zeta. rewrite make_entry_eq. unfold stored, unstored.
  repeat case_match; simpl; repeat split; congruence.
Qed.

(** C6. An entry that [make_entry] stores carries, under ["expires"],
    the sum of the TTL and of the clock as read during the call when a
    TTL is given, and [None] when the TTL is [None]. *)
Theorem entry_expiry_at_write_time r' :
  fst result = inr r' → cacheable response = true →
  ∃ entry,
    store (snd result)
    = store_set key (json_dumps entry) expires base_key s
    ∧ entry !! "expires"
      = Some (match expires with
              | Some ttl => JFloat (time_add ttl now)
              | None => JNull
              end).
Proof.
  intros Hret Hc.
  destruct (make_entry_stored r' Hret Hc)
    as (payload & value & type & Hpayload & Hsnd & _).
  eexists. split.
  - by rewrite Hsnd.
  - apply entry_of_expires. by destruct Hpayload as [->|[->| ->]].
Qed.

(** C8. An entry that [make_entry] stores carries, under ["headers"], the
    headers the handler put on the response, as they were before the
    marker was assigned: no marker unless the handler set one. The live
    response, which is the one returned, has these headers with the marker
    ["X-PULP-CACHE"] assigned ["MISS"]. *)
Theorem stored_headers_precede_marker r' :
  fst result = inr r' → cacheable response = true →
  ∃ entry,
    store (snd result)
    = store_set key (json_dumps entry) expires base_key s
    ∧ entry !! "headers" = Some (JDict (headers response))
    ∧ (Headers.get "X-PULP-CACHE" (headers response) = None →
       ∀ d, entry !! "headers" = Some (JDict d) →
            Headers.get "X-PULP-CACHE" d = None ∧ d ≠ headers r')
    ∧ live (snd result) = r'
    ∧ headers r'
      = Headers.setitem "X-PULP-CACHE" "MISS" (headers response)
    ∧ Headers.get "X-PULP-CACHE" (headers r') = Some "MISS".
Proof.
  intros Hret Hc.
  destruct (make_entry_stored r' Hret Hc)
    as (payload & value & type & Hpayload & Hsnd & Hh).
  assert (Headers.get "X-PULP-CACHE" (headers r') = Some "MISS") as Hm
    by (rewrite Hh; apply get_setitem_eq).
  assert (entry_of time_add expires now response payload value type
            !! "headers" = Some (JDict (headers response))) as Hheaders.
  { apply entry_of_headers. by destruct Hpayload as [->|[->| ->]]. }
  eexists. split; [by rewrite Hsnd|]. split; [exact Hheaders|].
  split.
  { intros Hnone d Hd. rewrite Hheaders in Hd. injection Hd as <-.
    split; [exact Hnone|]. intros E. rewrite E, Hm in Hnone. discriminate. }
  split; [by rewrite Hsnd|]. by split.
Qed.

(** Only the class [Response] passes the third test of [make_entry]. *)
Lemma isinstance_Response (r : ResponseObj) :
  isinstance r Response = true →
  isinstance r HttpResponseRedirect = false
  ∧ isinstance r ApiFileResponse = false
  ∧ isinstance r SimpleTemplateResponse = true.
Proof. unfold isinstance. by destruct (cls r). Qed.

(** C9. For a response of the REST framework that has a content type
    header, [make_entry] leaves the live response with a JSON renderer,
    the media type ["application/json"], the content type of that header
    and an empty renderer context, besides the marker; this is the
    response it returns when it returns, and its rendering attributes
    are not the handler's unless the handler had set these very values. *)
Theorem structured_response_rendering_state_overwritten ct :
  isinstance response Response = true →
  Headers.get "Content-Type" (headers response) = Some ct →
  let r := live (snd result) in
  accepted_renderer r = Some JSONRenderer
  ∧ accepted_media_type r = Some "application/json"
  ∧ content_type r = Some ct
  ∧ renderer_context r = Some []
  ∧ Headers.get "X-PULP-CACHE" (headers r) = Some "MISS"
  ∧ (∀ r', fst result = inr r' → r' = r)
  ∧ (rendering_state response
     ≠ (Some JSONRenderer, Some "application/json", Some ct, Some []) →
     rendering_state r ≠ rendering_state response).
Proof.
  intros Hinst Hct.
  destruct (isinstance_Response _ Hinst) as (Hredirect & Hfile & _).
  assert (Headers.get "Content-Type" (headers marked) = Some ct) as Hct'.
  { unfold marked. simpl. by rewrite get_setitem_ne. }
  assert (Headers.get "X-PULP-CACHE" (headers marked) = Some "MISS") as Hm.
  { unfold marked. simpl. apply get_setitem_eq. }
  cbv zeta. rewrite make_entry_eq, Hredirect, Hfile, Hinst, Hct'.
  unfold stored, unstored, rendering_state. cbv zeta.
  destruct (response_content _) as [e|content]; simpl.
  - repeat split; try done; congruence.
  - destruct (decode_utf8 content) as [text|]; simpl;
      repeat split; try done; try congruence; by intros r' [= <-].
Qed.

(** C4 fails on the code. [make_entry] never renders: a response of the
    REST framework that the handler has not rendered makes it raise
    [ContentNotRenderedError] where it reads the content, with nothing
    stored and the response still not rendered. *)
Theorem unrendered_structured_response_raises ct :
  isinstance response Response = true →
  is_rendered response = false →
  Headers.get "Content-Type" (headers response) = Some ct →
  fst result = inl ContentNotRenderedError
  ∧ store (snd result) = s
  ∧ is_rendered (live (snd result)) = false.
Proof.
  intros Hinst Hr Hct.
  destruct (isinstance_Response _ Hinst) as (Hredirect & Hfile & Hsimple).
  assert (Headers.get "Content-Type" (headers marked) = Some ct) as Hct'.
  { unfold marked. simpl. by rewrite get_setitem_ne. }
  rewrite make_entry_eq, Hredirect, Hfile, Hinst, Hct'. cbv zeta.
  unfold response_content, isinstance in *. simpl. rewrite Hsimple, Hr.
  done.
Qed.

End EntryCodecFacts.

(** *** The theorems at work on concrete calls *)

Lemma entry_expiry_at_write_time_witness :
  let result :=
    make_entry Z.add dumps_type Some api_cache "k" "bk"
      (returning raw_response) tt tt (Some 600) ∅ 1000 in
  ∃ entry,
    store (snd result) = store_set "k" (dumps_type entry) (Some 600) "bk" ∅
    ∧ entry !! "expires" = Some (JFloat (600 + 1000)).
Proof.
  intros result.
  eapply (entry_expiry_at_write_time Z.add dumps_type Some api_cache "k" "bk"
            (returning raw_response) tt tt (Some 600) ∅ 1000);
    reflexivity.
Defined.

Lemma stored_headers_precede_marker_witness :
  let result :=
    make_entry Z.add dumps_headers Some api_cache "k" "bk"
      (returning raw_response) tt tt None ∅ 1000 in
  store_get "k" "bk" (store (snd result)) = Some "Content-Type: text/plain"
  ∧ fst result
    = inr (with_headers
             [("Content-Type", "text/plain"); ("X-PULP-CACHE", "MISS")]
             raw_response).
Proof.
  intros result.
  destruct (stored_headers_precede_marker Z.add dumps_headers Some api_cache
              "k" "bk" (returning raw_response) tt tt None ∅ 1000
              (with_headers
                 [("Content-Type", "text/plain"); ("X-PULP-CACHE", "MISS")]
                 raw_response))
    as (entry & Hstore & Hheaders & _); [reflexivity..|].
  split; [|reflexivity].
  unfold result. rewrite Hstore, store_get_set_eq.
  unfold dumps_headers. rewrite Hheaders. reflexivity.
Defined.

Lemma structured_response_rendering_state_overwritten_witness :
  let result :=
    make_entry Z.add dumps_type Some api_cache "k" "bk"
      (returning rendered_response) tt tt (Some 600) ∅ 1000 in
  rendering_state (live (snd result))
  ≠ rendering_state rendered_response
  ∧ accepted_renderer (live (snd result)) = Some JSONRenderer.
Proof.
  intros result.
  destruct (structured_response_rendering_state_overwritten Z.add dumps_type
              Some api_cache "k" "bk" (returning rendered_response) tt tt
              (Some 600) ∅ 1000 "text/html; charset=utf-8")
    as (Hrenderer & _ & _ & _ & _ & _ & Hdiff); [reflexivity..|].
  split; [|exact Hrenderer]. apply Hdiff. discriminate.
Defined.

Lemma unrendered_structured_response_raises_witness :
  let result :=
    make_entry Z.add dumps_type Some api_cache "k" "bk"
      (returning unrendered_response) tt tt (Some 600) ∅ 1000 in
  fst result = inl ContentNotRenderedError
  ∧ store (snd result) = ∅
  ∧ is_rendered (live (snd result)) = false.
Proof.
  intros result.
  apply (unrendered_structured_response_raises Z.add dumps_type Some
           api_cache "k" "bk" (returning unrendered_response) tt tt
           (Some 600) ∅ 1000 "text/html; charset=utf-8");
    reflexivity.
Defined.

(** * Further properties *)

(** ** The resolver, beyond the claims *)

Lemma prefix_refl (p : string) : String.prefix p p = true.
Proof.
  induction p as [|c p IH]; [reflexivity|].
  simpl. by destruct (ascii_dec c c).
Qed.

(** Of two prefixes of one string, the smaller in the order is the
    shorter. *)
Lemma prefix_le_length (p a b : string) :
  String.prefix a p = true → String.prefix b p = true →
  String.le a b → (String.length a ≤ String.length b)%nat.
Proof.
  revert a b. induction p as [|z p IH]; intros [|x a] [|y b] Ha Hb Hle;
    simpl in *; try lia; try done.
  destruct (ascii_dec x z) as [->|]; [|done].
  destruct (ascii_dec y z) as [->|]; [|done].
  apply le_n_S, IH; [done..|].
  unfold String.le, String.leb in *. simpl in Hle.
  assert (Ascii.compare z z = Eq) as Hzz
    by (unfold Ascii.compare; apply N.compare_refl).
  by rewrite Hzz in Hle.
Qed.

Lemma find_base_path_cached_no_path {Time : Type} (cache_key : string → string)
    (request : DjangoRequest) (cached : Store Time)
    (distributions pull_through : list Distribution) (domain : string) :
  dj_resolver_match_kwargs request !! "path" = None →
  find_base_path_cached cache_key request cached distributions pull_through
    domain
  = (inl (KeyError "path"), []).
Proof.
  intros Hpath. unfold find_base_path_cached, find_base_path_cached_body.
  by rewrite Hpath.
Qed.

Lemma exact_matches_domain path domain rows :
  exact_matches path domain
    (List.filter (fun d => bool_decide (pulp_domain d = domain)) rows)
  = exact_matches path domain rows.
Proof.
  unfold exact_matches. induction rows as [|d rows IH]; [done|].
  simpl. destruct (bool_decide (pulp_domain d = domain)) eqn:Hd; simpl.
  - by rewrite Hd, IH.
  - by rewrite andb_false_r.
Qed.

Lemma prefix_matches_domain path domain rows :
  prefix_matches path domain
    (List.filter (fun d => bool_decide (pulp_domain d = domain)) rows)
  = prefix_matches path domain rows.
Proof.
  unfold prefix_matches. induction rows as [|d rows IH]; [done|].
  simpl. destruct (bool_decide (pulp_domain d = domain)) eqn:Hd; simpl.
  - by rewrite Hd, IH.
  - by rewrite andb_false_r.
Qed.

Section ResolverExtras.

Context {Time : Type}.
Variable cache_key : string → string.
Implicit Types (request : DjangoRequest) (cached : Store Time).
Implicit Types (distributions pull_through : list Distribution).

(** X1. With no partition for the path and exactly one distribution of
    the domain at the path, the resolver returns the base key of the path
    after two queries: the pull-through table is not consulted, whatever
    it holds. *)
Theorem exact_distribution_precedes_pull_through
    request path cached distributions pull_through domain d :
  dj_resolver_match_kwargs request !! "path" = Some path →
  store_exists (cache_key path) cached = false →
  exact_matches path domain distributions = [d] →
  find_base_path_cached cache_key request cached distributions pull_through
    domain
  = (inr (cache_key path),
     [CachedExists (cache_key path); ContainerDistributionGet path domain]).
Proof.
  intros Hpath Hex Hd.
  rewrite (find_base_path_cached_eq _ _ path), Hex, Hd by done.
  assert (d ∈ exact_matches path domain distributions) as Hin
    by (rewrite Hd; apply list_elem_of_here).
  apply elem_of_exact_matches in Hin as (_ & -> & _). done.
Qed.

(** X3. Every outcome of the resolver is one of four: [KeyError] for a
    request without a path, before any query; the base key of a prefix of
    the path (the path itself included); [MultipleObjectsReturned]; or
    [RepositoryNotFound] for the path. [ObjectDoesNotExist] never leaves
    it, and it makes at most three queries, the first one of the store. *)
Theorem resolver_outcomes
    request cached distributions pull_through domain :
  let result := find_base_path_cached cache_key request cached distributions
                  pull_through domain in
  (dj_resolver_match_kwargs request !! "path" = None
   ∧ result = (inl (KeyError "path"), []))
  ∨ (∃ path,
       dj_resolver_match_kwargs request !! "path" = Some path
       ∧ ((∃ p, fst result = inr (cache_key p)
                ∧ Py.startswith path p = true)
          ∨ fst result = inl MultipleObjectsReturned
          ∨ fst result = inl (RepositoryNotFound path))
       ∧ (∃ rest, snd result = CachedExists (cache_key path) :: rest
                  ∧ (length rest ≤ 2)%nat)).
Proof.
  intros result. unfold result.
  destruct (dj_resolver_match_kwargs request !! "path") as [path|] eqn:Hpath.
  2: { left. split; [done|]. by apply find_base_path_cached_no_path. }
  right. exists path. split; [done|].
  rewrite (find_base_path_cached_eq _ _ path) by done.
  destruct (store_exists (cache_key path) cached).
  { split.
    - left. exists path. split; [done|]. apply prefix_refl.
    - exists []. split; [done|]. simpl. lia. }
  destruct (exact_matches path domain distributions) as [|d [|d' l]] eqn:Hd.
  - split.
    + destruct (head _) as [d|] eqn:Hhd; simpl; [|auto].
      apply head_order_by_desc in Hhd as [Hin _].
      apply elem_of_prefix_matches in Hin as (_ & Hpre & _).
      left. by exists (base_path d).
    + eexists. split; [done|]. simpl. lia.
  - assert (d ∈ exact_matches path domain distributions) as Hin
      by (rewrite Hd; apply list_elem_of_here).
    apply elem_of_exact_matches in Hin as (_ & -> & _). split.
    + left. eexists. split; [done|]. apply prefix_refl.
    + eexists. split; [done|]. simpl. lia.
  - split; [auto|]. eexists. split; [done|]. simpl. lia.
Qed.

(** X4. Rows of other domains do not count: the resolver gives the same
    result and makes the same queries on the two tables as on their rows
    of the current domain. *)
Theorem resolver_ignores_other_domains
    request cached distributions pull_through domain :
  let in_domain := fun d => bool_decide (pulp_domain d = domain) in
  find_base_path_cached cache_key request cached distributions pull_through
    domain
  = find_base_path_cached cache_key request cached
      (List.filter in_domain distributions)
      (List.filter in_domain pull_through) domain.
Proof.
  intros in_domain.
  destruct (dj_resolver_match_kwargs request !! "path") as [path|] eqn:Hpath.
  - rewrite !(find_base_path_cached_eq _ _ path) by done.
    unfold in_domain. by rewrite exact_matches_domain, prefix_matches_domain.
  - by rewrite !find_base_path_cached_no_path.
Qed.

(** X5. The pull-through distribution the resolver selects has the
    longest base path of all pull-through distributions of the domain
    whose base path is a prefix of the request path. *)
Theorem pull_through_longest_prefix
    request path cached distributions pull_through domain :
  dj_resolver_match_kwargs request !! "path" = Some path →
  store_exists (cache_key path) cached = false →
  exact_matches path domain distributions = [] →
  prefix_matches path domain pull_through ≠ [] →
  ∃ d, fst (find_base_path_cached cache_key request cached distributions
              pull_through domain) = inr (cache_key (base_path d))
       ∧ d ∈ prefix_matches path domain pull_through
       ∧ ∀ d', d' ∈ prefix_matches path domain pull_through →
               (String.length (base_path d')
                ≤ String.length (base_path d))%nat.
Proof.
  intros Hpath Hex Hexact Hsome.
  rewrite (find_base_path_cached_eq _ _ path), Hex, Hexact by done. simpl.
  destruct (head _) as [d|] eqn:Hhd.
  - apply head_order_by_desc in Hhd as [Hd Hmax].
    exists d. split; [done|]. split; [done|].
    intros d' Hd'. apply (prefix_le_length path).
    + by apply elem_of_prefix_matches in Hd' as (_ & ? & _).
    + by apply elem_of_prefix_matches in Hd as (_ & ? & _).
    + by apply Hmax.
  - by apply head_order_by_desc_None in Hhd.
Qed.

End ResolverExtras.

(** ** The entry codec, beyond the claims *)

Lemma length_setitem (name value : string) (h : Headers.t) :
  length (Headers.setitem name value h)
  = match Headers.get name h with
    | Some _ => length h
    | None => S (length h)
    end.
Proof.
  induction h as [|[k v] h IH]; simpl; [done|].
  destruct (Headers.same_name name k); simpl; [done|].
  rewrite IH. by destruct (Headers.get name h).
Qed.

Lemma isinstance_ApiFileResponse (r : ResponseObj) :
  isinstance r ApiFileResponse = true →
  isinstance r HttpResponseRedirect = false.
Proof. unfold isinstance. by destruct (cls r). Qed.

Lemma isinstance_HttpResponseRedirect (r : ResponseObj) :
  isinstance r HttpResponseRedirect = true → cacheable r = true.
Proof. unfold cacheable. by intros ->. Qed.

Lemma store_get_set_ne {Time : Type} key key' value (ttl : option Time)
    bk bk' (s : Store Time) :
  key ≠ key' ∨ bk ≠ bk' →
  store_get key' bk' (store_set key value ttl bk s) = store_get key' bk' s.
Proof.
  unfold store_get, store_set, Store in *. intros Hne.
  destruct (decide (bk = bk')) as [->|Hbk].
  - rewrite lookup_insert_eq. destruct Hne as [Hk|]; [|done].
    destruct (s !! bk') as [partition|]; simpl.
    + by rewrite lookup_insert_ne.
    + rewrite lookup_insert_ne by done. by rewrite lookup_empty.
  - by rewrite lookup_insert_ne.
Qed.

(** A string is not among the strings of a list that spells them out. *)
Ltac not_among :=
  let H := fresh in
  intros H;
  repeat (apply elem_of_cons in H as [H|H]; [discriminate H|]);
  by apply elem_of_nil in H.

Section EntryCodecExtras.

Context {Time Auth Args Kwargs : Type}.
Variable time_add : Time → Time → Time.
Variable json_dumps : gmap string (Json Time) → string.
Variable decode_utf8 : string → option string.
Variable self : Cache Time Auth.
Variables key base_key : string.
Variable handler : Args → Kwargs → ResponseObj.
Variable args : Args.
Variable kwargs : Kwargs.
Variable expires : option Time.
Variable s : Store Time.
Variable now : Time.

Let response : ResponseObj := handler args kwargs.
Let result : (Exn + ResponseObj) * Objects Time :=
  make_entry time_add json_dumps decode_utf8 self key base_key handler args
    kwargs expires s now.
Let marked : ResponseObj :=
  with_headers (Headers.setitem "X-PULP-CACHE" "MISS" (headers response))
    response.

Lemma entry_of_dom payload value type :
  dom (entry_of time_add expires now response payload value type)
  = {["headers"; "status"; "expires"; "type"]} ∪ {[payload]}.
Proof.
  unfold entry_of. rewrite !dom_insert_L, dom_empty_L.
  apply set_eq. intros k.
  rewrite !elem_of_union, !elem_of_singleton, elem_of_empty. tauto.
Qed.

Lemma entry_of_type payload value type :
  entry_of time_add expires now response payload value type !! "type"
  = Some (JStr type).
Proof. unfold entry_of. by rewrite lookup_insert_eq. Qed.

Lemma entry_of_payload payload value type :
  payload ≠ "type" →
  entry_of time_add expires now response payload value type !! payload
  = Some (JStr value).
Proof.
  intros Hne. unfold entry_of.
  rewrite lookup_insert_ne by done. by rewrite lookup_insert_eq.
Qed.

Lemma entry_of_status payload value type :
  payload ≠ "status" →
  entry_of time_add expires now response payload value type !! "status"
  = Some (JInt (status_code response)).
Proof.
  intros Hne. unfold entry_of.
  rewrite lookup_insert_ne by done. rewrite lookup_insert_ne by done.
  rewrite lookup_insert_ne by done. by rewrite lookup_insert_eq.
Qed.

Lemma entry_of_absent payload value type k :
  k ∉ ["headers"; "status"; "expires"; "type"; payload] →
  entry_of time_add expires now response payload value type !! k = None.
Proof.
  intros Hk. apply not_elem_of_dom. rewrite entry_of_dom.
  rewrite elem_of_union, elem_of_singleton. intros [Hin| ->].
  - apply Hk. rewrite !elem_of_union, !elem_of_singleton in Hin.
    rewrite !elem_of_cons. tauto.
  - apply Hk. rewrite !elem_of_cons. tauto.
Qed.

(** A stored entry is one of three kinds, told by the branch taken. *)
Lemma make_entry_stored_kind r' :
  fst result = inr r' → cacheable response = true →
  ∃ payload value type,
    ((payload = "redirect_to" ∧ type = "Redirect"
      ∧ isinstance response HttpResponseRedirect = true)
     ∨ (payload = "path" ∧ type = "FileResponse"
        ∧ isinstance response ApiFileResponse = true)
     ∨ (payload = "content" ∧ type = "Response"
        ∧ isinstance response HttpResponseRedirect = false
        ∧ isinstance response ApiFileResponse = false))
    ∧ snd result
      = mkObjects r'
          (store_set key
             (json_dumps
                (entry_of time_add expires now response payload value type))
             expires base_key s)
          now.
Proof.
  unfold result. rewrite make_entry_eq. fold response. unfold cacheable.
  destruct (isinstance response HttpResponseRedirect).
  { destruct (Headers.get "Location" _) as [location|]; intros [= <-] _.
    exists "redirect_to", location, "Redirect". auto. }
  destruct (isinstance response ApiFileResponse).
  { intros [= <-] _. exists "path", (filename response), "FileResponse".
    auto 6. }
  destruct (isinstance response Response).
  { cbv zeta. destruct (Headers.get "Content-Type" _) as [ct|]; [|done].
    destruct (response_content _) as [e|content]; [done|].
    destruct (decode_utf8 content) as [text|]; [|done].
    intros [= <-] _. exists "content", text, "Response". auto 8. }
  destruct (isinstance response HttpResponse); [|done].
  destruct (response_content _) as [e|content]; [done|].
  destruct (decode_utf8 content) as [text|]; [|done].
  intros [= <-] _. exists "content", text, "Response". auto 8.
Qed.

(** X6. A stored entry has five keys: ["headers"], ["status"] with the
    status code of the response, ["expires"], ["type"] and the one payload
    key that goes with the type: ["redirect_to"] for ["Redirect"],
    ["path"] for ["FileResponse"], ["content"] for ["Response"]. *)
Theorem stored_entry_shape r' :
  fst result = inr r' → cacheable response = true →
  ∃ entry payload type,
    store (snd result) = store_set key (json_dumps entry) expires base_key s
    ∧ ((type, payload) = ("Redirect", "redirect_to")
       ∨ (type, payload) = ("FileResponse", "path")
       ∨ (type, payload) = ("Response", "content"))
    ∧ dom entry = {["headers"; "status"; "expires"; "type"]} ∪ {[payload]}
    ∧ entry !! "type" = Some (JStr type)
    ∧ entry !! "status" = Some (JInt (status_code response)).
Proof.
  intros Hret Hc.
  destruct (make_entry_stored_kind r' Hret Hc)
    as (payload & value & type & Hkind & Hsnd).
  eexists _, payload, type. split; [by rewrite Hsnd|].
  split; [destruct Hkind as [(-> & -> & _)|[(-> & -> & _)|(-> & -> & _)]];
          auto|].
  split; [apply entry_of_dom|]. split; [apply entry_of_type|].
  apply entry_of_status.
  by destruct Hkind as [(-> & _)|[(-> & _)|(-> & _)]].
Qed.

(** X7. A redirect that has a location is stored as a redirect, although
    it is an [HttpResponse] too: the entry holds the location under
    ["redirect_to"], and neither content nor path. Its body is not read,
    so the call returns whatever the body holds. *)
Theorem redirect_entry_holds_location location :
  isinstance response HttpResponseRedirect = true →
  Headers.get "Location" (headers response) = Some location →
  ∃ entry,
    result
    = (inr marked,
       mkObjects marked (store_set key (json_dumps entry) expires base_key s)
         now)
    ∧ entry !! "type" = Some (JStr "Redirect")
    ∧ entry !! "redirect_to" = Some (JStr location)
    ∧ entry !! "content" = None
    ∧ entry !! "path" = None.
Proof.
  intros Hinst Hloc.
  assert (Headers.get "Location" (headers marked) = Some location) as Hloc'.
  { unfold marked. simpl. by rewrite get_setitem_ne. }
  unfold result. rewrite make_entry_eq. fold response. fold marked.
  rewrite Hinst, Hloc'. eexists. split; [reflexivity|].
  split; [apply entry_of_type|]. split; [by apply entry_of_payload|].
  split; apply entry_of_absent; not_among.
Qed.

(** X8. A redirect without a location makes [make_entry] raise
    [KeyError] with the case-folded header name ["location"]: nothing is
    stored, and the marker is already on the response. *)
Theorem redirect_without_location_raises :
  isinstance response HttpResponseRedirect = true →
  Headers.get "Location" (headers response) = None →
  result = (inl (KeyError "location"), mkObjects marked s now).
Proof.
  intros Hinst Hloc.
  assert (Headers.get "Location" (headers marked) = None) as Hloc'.
  { unfold marked. simpl. by rewrite get_setitem_ne. }
  unfold result. rewrite make_entry_eq. fold response. fold marked.
  by rewrite Hinst, Hloc'.
Qed.

(** X9. A file response is stored by its file name alone: the call
    always returns, the entry holds the name under ["path"] and no
    content, and the body is not read. *)
Theorem file_response_entry_holds_path :
  isinstance response ApiFileResponse = true →
  ∃ entry,
    result
    = (inr marked,
       mkObjects marked (store_set key (json_dumps entry) expires base_key s)
         now)
    ∧ entry !! "type" = Some (JStr "FileResponse")
    ∧ entry !! "path" = Some (JStr (filename response))
    ∧ entry !! "content" = None
    ∧ entry !! "redirect_to" = None.
Proof.
  intros Hinst.
  unfold result. rewrite make_entry_eq. fold response. fold marked.
  rewrite (isinstance_ApiFileResponse _ Hinst), Hinst.
  eexists. split; [reflexivity|].
  split; [apply entry_of_type|]. split; [by apply entry_of_payload|].
  split; apply entry_of_absent; not_among.
Qed.

(** X10. A plain [HttpResponse] is stored with its decoded body under
    ["content"]; a body that is not UTF-8 makes [make_entry] raise
    [UnicodeDecodeError] with nothing stored. *)
Theorem raw_response_entry_holds_decoded_body :
  cls response = HttpResponse →
  (∀ text, decode_utf8 (body response) = Some text →
     ∃ entry,
       result
       = (inr marked,
          mkObjects marked
            (store_set key (json_dumps entry) expires base_key s) now)
       ∧ entry !! "type" = Some (JStr "Response")
       ∧ entry !! "content" = Some (JStr text))
  ∧ (decode_utf8 (body response) = None →
     result = (inl UnicodeDecodeError, mkObjects marked s now)).
Proof.
  intros Hcls.
  assert (result
          = match decode_utf8 (body response) with
            | Some text =>
                (inr marked,
                 mkObjects marked
                   (store_set key
                      (json_dumps
                         (entry_of time_add expires now response "content"
                            text "Response"))
                      expires base_key s) now)
            | None => (inl UnicodeDecodeError, mkObjects marked s now)
            end) as ->.
  { unfold result. rewrite make_entry_eq. fold response. fold marked.
    unfold response_content, isinstance. simpl. rewrite Hcls. simpl.
    reflexivity. }
  split.
  - intros text ->. eexists. split; [reflexivity|].
    split; [apply entry_of_type | by apply entry_of_payload].
  - by intros ->.
Qed.

(** X11. A response of the REST framework that the handler has rendered,
    and that has a content type, is stored with its decoded body under
    ["content"]. *)
Theorem rendered_structured_response_entry ct text :
  isinstance response Response = true →
  is_rendered response = true →
  Headers.get "Content-Type" (headers response) = Some ct →
  decode_utf8 (body response) = Some text →
  ∃ entry r',
    result
    = (inr r',
       mkObjects r' (store_set key (json_dumps entry) expires base_key s) now)
    ∧ entry !! "type" = Some (JStr "Response")
    ∧ entry !! "content" = Some (JStr text)
    ∧ body r' = body response.
Proof.
  intros Hinst Hr Hct Hdec.
  destruct (isinstance_Response _ Hinst) as (Hredirect & Hfile & _).
  assert (Headers.get "Content-Type" (headers marked) = Some ct) as Hct'.
  { unfold marked. simpl. by rewrite get_setitem_ne. }
  unfold result. rewrite make_entry_eq. fold response. fold marked.
  rewrite Hredirect, Hfile, Hinst, Hct'. cbv zeta.
  unfold response_content. simpl. rewrite Hr, andb_false_r, Hdec.
  eexists _, _. split; [reflexivity|].
  split; [apply entry_of_type|]. split; [by apply entry_of_payload|done].
Qed.

(** X12. A response of none of the four classes is passed through:
    [make_entry] returns it with the marker on it, raises nothing and
    stores nothing. *)
Theorem uncacheable_response_passes_through :
  cacheable response = false →
  result = (inr marked, mkObjects marked s now).
Proof.
  unfold cacheable. intros Hc.
  apply orb_false_elim in Hc as [Hc Hhttp].
  apply orb_false_elim in Hc as [Hc Hresp].
  apply orb_false_elim in Hc as [Hredirect Hfile].
  unfold result. rewrite make_entry_eq. fold response. fold marked.
  by rewrite Hredirect, Hfile, Hresp, Hhttp.
Qed.

(** X13. Whatever the call does, the live response ends with the marker
    assigned ["MISS"]: it replaces a marker the handler had set under any
    spelling of the name, and is one more header otherwise. The other
    headers, the class, status, file name, body and rendered flag of the
    response are the handler's. *)
Theorem live_response_marked_and_otherwise_kept :
  let r := live (snd result) in
  Headers.get "X-PULP-CACHE" (headers r) = Some "MISS"
  ∧ (∀ name, Headers.same_name name "X-PULP-CACHE" = false →
       Headers.get name (headers r) = Headers.get name (headers response))
  ∧ length (headers r)
    = match Headers.get "X-PULP-CACHE" (headers response) with
      | Some _ => length (headers response)
      | None => S (length (headers response))
      end
  ∧ cls r = cls response ∧ status_code r = status_code response
  ∧ filename r = filename response ∧ body r = body response
  ∧ is_rendered r = is_rendered response.
Proof.
  cbv zeta.
  assert (headers (live (snd result))
          = Headers.setitem "X-PULP-CACHE" "MISS" (headers response)
          ∧ cls (live (snd result)) = cls response
          ∧ status_code (live (snd result)) = status_code response
          ∧ filename (live (snd result)) = filename response
          ∧ body (live (snd result)) = body response
          ∧ is_rendered (live (snd result)) = is_rendered response)
    as (Hh & ? & ? & ? & ? & ?).
  { unfold result. rewrite make_entry_eq. fold response.
    cbv zeta. repeat case_match; simpl; by repeat split. }
  rewrite Hh. split; [apply get_setitem_eq|].
  split; [intros name Hne; by apply get_setitem_ne|].
  split; [apply length_setitem|done].
Qed.

(** X14. [make_entry] writes at most one slot of the store, the one of
    [key] in the partition of [base_key]: every other slot reads as
    before, and after a call that stores, that slot reads the serialised
    entry and the partition exists. *)
Theorem make_entry_store_frame :
  (∀ k bk, k ≠ key ∨ bk ≠ base_key →
     store_get k bk (store (snd result)) = store_get k bk s)
  ∧ (∀ r', fst result = inr r' → cacheable response = true →
       ∃ entry,
         store (snd result)
         = store_set key (json_dumps entry) expires base_key s
         ∧ store_get key base_key (store (snd result))
           = Some (json_dumps entry)
         ∧ store_exists base_key (store (snd result)) = true).
Proof.
  split.
  - intros k bk Hne.
    destruct (fst result) as [e|r'] eqn:Hret.
    { unfold result in *.
      rewrite make_entry_unstored; [done|]. left. intros r'. by rewrite Hret. }
    destruct (cacheable response) eqn:Hc.
    + destruct (make_entry_stored_kind r' Hret Hc)
        as (payload & value & type & _ & ->). simpl.
      apply store_get_set_ne. destruct Hne; auto.
    + unfold result in *. rewrite make_entry_unstored; [done|]. by right.
  - intros r' Hret Hc.
    destruct (make_entry_stored_kind r' Hret Hc)
      as (payload & value & type & _ & ->). simpl.
    eexists. split; [reflexivity|].
    split; [apply store_get_set_eq | apply store_exists_set].
Qed.

End EntryCodecExtras.

(** ** The key derivers, beyond the claims *)

Section KeyExtras.

Context {Time Auth : Type}.
Implicit Types (self : Cache Time Auth).

(** X15. The structured-API cache makes its key of path, method and
    accept header only: two requests that agree on the three get the same
    key, whatever their hosts, query strings and other headers; two
    requests that differ in one of the three get different keys when
    their methods contain no [":"] and either their paths or their accept
    headers contain none. *)
Theorem api_key_deterministic_and_separating
    (bk : option string) (ttl : option Time) (au : option Auth)
    (r1 r2 : DjangoRequest) :
  let c := RegistryCache_init bk ttl au in
  let accept := fun r => default "" (Headers.get "accept" (dj_headers r)) in
  (dj_path r1 = dj_path r2 → dj_method r1 = dj_method r2 →
   accept r1 = accept r2 →
   RegistryApiCache_make_key c r1 = RegistryApiCache_make_key c r2)
  ∧ (Py.colon_free (dj_method r1) = true →
     Py.colon_free (dj_method r2) = true →
     (Py.colon_free (dj_path r1) = true ∧ Py.colon_free (dj_path r2) = true)
     ∨ (Py.colon_free (accept r1) = true ∧ Py.colon_free (accept r2) = true) →
     dj_path r1 ≠ dj_path r2 ∨ dj_method r1 ≠ dj_method r2
     ∨ accept r1 ≠ accept r2 →
     RegistryApiCache_make_key c r1 ≠ RegistryApiCache_make_key c r2).
Proof.
  intros c accept. unfold c, accept. rewrite !api_key_eq. split.
  - intros -> -> ->. reflexivity.
  - intros Hm1 Hm2 Hfree Hdiff [=E].
    assert (dj_path r1 = dj_path r2 ∧ dj_method r1 = dj_method r2
            ∧ default "" (Headers.get "accept" (dj_headers r1))
              = default "" (Headers.get "accept" (dj_headers r2)))
      as (Hp & Hm & Ha).
    { destruct Hfree as [[Hp1 Hp2]|[Ha1 Ha2]].
      - by apply join3_inj_front.
      - by apply join3_inj_back. }
    destruct Hdiff as [?|[?|?]]; done.
Qed.

(** X16. A request without an accept header is keyed as one whose accept
    header is empty, by both registry caches: the key ends with the
    delimiter, and adding an empty accept header does not change it. *)
Theorem missing_accept_is_empty_accept
    (bk : option string) (ttl : option Time) (au : option Auth) :
  let c := RegistryCache_init bk ttl au in
  (∀ r : AioRequest,
     Headers.getall "accept" [] (aio_headers r) = [] →
     RegistryContentCache_make_key c r
     = inr (Py.join ":" [aio_path r; aio_method r; ""])
     ∧ RegistryContentCache_make_key c r
       = RegistryContentCache_make_key c
           (mkAioRequest (aio_path r) (aio_method r) (aio_url_host r)
              (aio_headers r ++ [("Accept", "")])))
  ∧ (∀ r : DjangoRequest,
       Headers.get "accept" (dj_headers r) = None →
       RegistryApiCache_make_key c r
       = inr (Py.join ":" [dj_path r; dj_method r; ""])
       ∧ RegistryApiCache_make_key c r
         = RegistryApiCache_make_key c
             (mkDjangoRequest (dj_path r) (dj_method r) (dj_get_host r)
                (("Accept", "") :: dj_headers r) (dj_query_params r)
                (dj_resolver_match_kwargs r))).
Proof.
  intros c. unfold c. split.
  - intros r Hnone. rewrite !content_key_eq. unfold aio_accept_header. simpl.
    assert (Headers.getall "accept" [] (aio_headers r ++ [("Accept", "")])
            = [""]) as ->.
    { unfold Headers.getall in *. rewrite List.filter_app.
      destruct (List.filter _ (aio_headers r)); [reflexivity|done]. }
    by rewrite Hnone.
  - intros r Hnone. rewrite !api_key_eq. simpl. by rewrite Hnone.
Qed.

(** X17. The content-serving cache cannot tell several accept headers
    from one header that holds their sorted, comma-joined values: a
    request carrying its own normalised accept header as its only accept
    header gets the key of the original request. *)
Theorem joined_accept_header_same_key
    (bk : option string) (ttl : option Time) (au : option Auth)
    (r : AioRequest) :
  let c := RegistryCache_init bk ttl au in
  RegistryContentCache_make_key c
    (mkAioRequest (aio_path r) (aio_method r) (aio_url_host r)
       [("Accept", aio_accept_header r)])
  = RegistryContentCache_make_key c r.
Proof. intros c. unfold c. by rewrite !content_key_eq. Qed.

End KeyExtras.

(** ** The codec and the resolver together *)

(** X19. Once [make_entry] has stored an entry in the partition of the
    base key of a path, the resolver answers a request for that path with
    that base key after the one query of the store, whatever the two
    tables hold by then. *)
Theorem stored_entry_short_circuits_resolver
    {Time Auth Args Kwargs : Type} (time_add : Time → Time → Time)
    (json_dumps : gmap string (Json Time) → string)
    (decode_utf8 : string → option string) (cache_key : string → string)
    (self : Cache Time Auth) (key : string)
    (handler : Args → Kwargs → ResponseObj) (args : Args) (kwargs : Kwargs)
    (expires : option Time) (s : Store Time) (now : Time) (r' : ResponseObj)
    (request : DjangoRequest) (path : string)
    (distributions pull_through : list Distribution) (domain : string) :
  let result := make_entry time_add json_dumps decode_utf8 self key
                  (cache_key path) handler args kwargs expires s now in
  fst result = inr r' → cacheable (handler args kwargs) = true →
  dj_resolver_match_kwargs request !! "path" = Some path →
  find_base_path_cached cache_key request (store (snd result)) distributions
    pull_through domain
  = (inr (cache_key path), [CachedExists (cache_key path)]).
Proof.
  intros result Hret Hc Hpath.
  destruct (make_entry_stored time_add json_dumps decode_utf8 self key
              (cache_key path) handler args kwargs expires s now r' Hret Hc)
    as (payload & value & type & _ & Hsnd & _).
  rewrite (find_base_path_cached_eq _ _ path) by done.
  unfold result in *. rewrite Hsnd. simpl. by rewrite store_exists_set.
Qed.

(** ** The further properties at work on concrete calls *)

Lemma exact_distribution_precedes_pull_through_witness :
  find_base_path_cached (Time:=Z) (fun p => p) (sample_request "a/b") ∅
    [mkDistribution "a/b" "default"; mkDistribution "a/b" "other"]
    [mkDistribution "a" "default"] "default"
  = (inr "a/b", [CachedExists "a/b"; ContainerDistributionGet "a/b" "default"]).
Proof.
  apply (exact_distribution_precedes_pull_through (Time:=Z) (fun p => p)
           (sample_request "a/b") "a/b" ∅ _ _ "default"
           (mkDistribution "a/b" "default"));
    reflexivity.
Defined.

Lemma pull_through_longest_prefix_witness :
  let pull_through := [mkDistribution "a" "default";
                       mkDistribution "a/b" "default";
                       mkDistribution "a/c" "default"] in
  ∃ d, fst (find_base_path_cached (Time:=Z) (fun p => p)
              (sample_request "a/b/c") ∅ [] pull_through "default")
       = inr (base_path d)
       ∧ d ∈ prefix_matches "a/b/c" "default" pull_through
       ∧ ∀ d', d' ∈ prefix_matches "a/b/c" "default" pull_through →
               (String.length (base_path d')
                ≤ String.length (base_path d))%nat.
Proof.
  intros pull_through.
  apply (pull_through_longest_prefix (Time:=Z) (fun p => p)
           (sample_request "a/b/c") "a/b/c");
    [reflexivity | reflexivity | reflexivity | discriminate].
Defined.

Lemma stored_entry_shape_witness :
  let result :=
    make_entry Z.add dumps_type Some api_cache "k" "bk"
      (returning redirect_response) tt tt (Some 600) ∅ 1000 in
  ∃ (entry : gmap string (Json Z)) payload type,
    store (snd result) = store_set "k" (dumps_type entry) (Some 600) "bk" ∅
    ∧ ((type, payload) = ("Redirect", "redirect_to")
       ∨ (type, payload) = ("FileResponse", "path")
       ∨ (type, payload) = ("Response", "content"))
    ∧ dom entry = {["headers"; "status"; "expires"; "type"]} ∪ {[payload]}
    ∧ entry !! "type" = Some (JStr type)
    ∧ entry !! "status" = Some (JInt 302).
Proof.
  intros result.
  eapply (stored_entry_shape Z.add dumps_type Some api_cache "k" "bk"
            (returning redirect_response) tt tt (Some 600) ∅ 1000);
    reflexivity.
Defined.

Lemma redirect_entry_holds_location_witness :
  ∃ entry : gmap string (Json Z),
    fst (make_entry Z.add dumps_type (fun _ => None) api_cache "k" "bk"
           (returning redirect_response) tt tt (Some 600) ∅ 1000)
    = inr (with_headers
             (Headers.setitem "X-PULP-CACHE" "MISS" (headers redirect_response))
             redirect_response)
    ∧ entry !! "redirect_to" = Some (JStr "https://cdn.example/blob")
    ∧ entry !! "content" = None.
Proof.
  destruct (redirect_entry_holds_location Z.add dumps_type (fun _ => None)
              api_cache "k" "bk" (returning redirect_response) tt tt
              (Some 600) ∅ 1000 "https://cdn.example/blob")
    as (entry & Hres & _ & Hloc & Hcontent & _); [reflexivity..|].
  exists entry. split; [by rewrite Hres|]. by split.
Defined.

Lemma redirect_without_location_raises_witness :
  fst (make_entry Z.add dumps_type Some api_cache "k" "bk"
         (returning redirect_without_location) tt tt (Some 600) ∅ 1000)
  = inl (KeyError "location").
Proof.
  by rewrite (redirect_without_location_raises Z.add dumps_type Some
                api_cache "k" "bk" (returning redirect_without_location) tt
                tt (Some 600) ∅ 1000 eq_refl eq_refl).
Defined.

Lemma file_response_entry_holds_path_witness :
  ∃ entry : gmap string (Json Z),
    store (snd (make_entry Z.add dumps_type (fun _ => None) api_cache "k"
                  "bk" (returning file_response) tt tt None ∅ 1000))
    = store_set "k" (dumps_type entry) None "bk" ∅
    ∧ entry !! "path" = Some (JStr "/var/lib/pulp/media/artifact/ab").
Proof.
  destruct (file_response_entry_holds_path Z.add dumps_type (fun _ => None)
              api_cache "k" "bk" (returning file_response) tt tt None ∅ 1000)
    as (entry & Hres & _ & Hfile & _); [reflexivity|].
  exists entry. split; [by rewrite Hres | exact Hfile].
Defined.

Lemma raw_response_entry_holds_decoded_body_witness :
  (∃ entry : gmap string (Json Z),
     store (snd (make_entry Z.add dumps_type Some api_cache "k" "bk"
                   (returning raw_response) tt tt None ∅ 1000))
     = store_set "k" (dumps_type entry) None "bk" ∅
     ∧ entry !! "content" = Some (JStr "pong"))
  ∧ fst (make_entry Z.add dumps_type (fun _ => None) api_cache "k" "bk"
           (returning raw_response) tt tt None ∅ 1000)
    = inl UnicodeDecodeError.
Proof.
  split.
  - destruct (proj1 (raw_response_entry_holds_decoded_body Z.add dumps_type
                       Some api_cache "k" "bk" (returning raw_response) tt tt
                       None ∅ 1000 eq_refl) "pong" eq_refl)
      as (entry & Hres & _ & Hcontent).
    exists entry. split; [by rewrite Hres | exact Hcontent].
  - by rewrite (proj2 (raw_response_entry_holds_decoded_body Z.add
                         dumps_type (fun _ => None) api_cache "k" "bk"
                         (returning raw_response) tt tt None ∅ 1000 eq_refl)
                  eq_refl).
Defined.

Lemma rendered_structured_response_entry_witness :
  ∃ (entry : gmap string (Json Z)) r',
    make_entry Z.add dumps_type Some api_cache "k" "bk"
      (returning rendered_response) tt tt (Some 600) ∅ 1000
    = (inr r',
       mkObjects r' (store_set "k" (dumps_type entry) (Some 600) "bk" ∅) 1000)
    ∧ entry !! "type" = Some (JStr "Response")
    ∧ entry !! "content" = Some (JStr "{}")
    ∧ body r' = "{}".
Proof.
  apply (rendered_structured_response_entry Z.add dumps_type Some api_cache
           "k" "bk" (returning rendered_response) tt tt (Some 600) ∅ 1000
           "text/html; charset=utf-8" "{}");
    reflexivity.
Defined.

Lemma uncacheable_response_passes_through_witness :
  make_entry Z.add dumps_type Some api_cache "k" "bk"
    (returning streaming_response) tt tt (Some 600) ∅ 1000
  = (inr (with_headers
            [("Content-Type", "text/plain"); ("X-PULP-CACHE", "MISS")]
            streaming_response),
     mkObjects
       (with_headers
          [("Content-Type", "text/plain"); ("X-PULP-CACHE", "MISS")]
          streaming_response) ∅ 1000).
Proof.
  apply (uncacheable_response_passes_through Z.add dumps_type Some api_cache
           "k" "bk" (returning streaming_response) tt tt (Some 600) ∅ 1000).
  reflexivity.
Defined.

Lemma live_response_marked_and_otherwise_kept_witness :
  let r := live (snd (make_entry Z.add dumps_type Some api_cache "k" "bk"
                        (returning premarked_response) tt tt None ∅ 1000)) in
  Headers.get "X-PULP-CACHE" (headers r) = Some "MISS"
  ∧ Headers.get "content-type" (headers r) = Some "text/plain"
  ∧ length (headers r) = 2%nat.
Proof.
  intros r.
  destruct (live_response_marked_and_otherwise_kept Z.add dumps_type Some
              api_cache "k" "bk" (returning premarked_response) tt tt None ∅
              1000)
    as (Hmarker & Hothers & Hlen & _).
  split; [exact Hmarker|]. split; [|exact Hlen].
  apply (Hothers "content-type"). reflexivity.
Defined.

Lemma make_entry_store_frame_witness :
  let s : Store Z := store_set "other" "entry" None "bk" ∅ in
  let result := make_entry Z.add dumps_type Some api_cache "k" "bk"
                  (returning raw_response) tt tt None s 1000 in
  store_get "other" "bk" (store (snd result)) = Some "entry"
  ∧ ∃ entry : gmap string (Json Z), store_get "k" "bk" (store (snd result))
             = Some (dumps_type entry).
Proof.
  intros s result.
  destruct (make_entry_store_frame Z.add dumps_type Some api_cache "k" "bk"
              (returning raw_response) tt tt None s 1000)
    as (Hframe & Hstored).
  split.
  - transitivity (store_get "other" "bk" s); [|reflexivity].
    apply Hframe. left. discriminate.
  - destruct (Hstored _ eq_refl eq_refl) as (entry & _ & Hget & _).
    by exists entry.
Defined.

Lemma api_key_deterministic_and_separating_witness :
  let c := RegistryCache_init (Time:=Z) (Auth:=unit) None None None in
  let r1 := mkDjangoRequest "/v2/r/tags/list" "GET" "registry"
              [("Accept", "application/json")] [("n", "10")] ∅ in
  let r2 := mkDjangoRequest "/v2/r/tags/list" "GET" "mirror"
              [("accept", "application/json"); ("User-Agent", "podman")]
              [("n", "20")] ∅ in
  let r3 := mkDjangoRequest "/v2/r/tags/list" "HEAD" "registry"
              [("Accept", "application/json")] [("n", "10")] ∅ in
  RegistryApiCache_make_key c r1 = RegistryApiCache_make_key c r2
  ∧ RegistryApiCache_make_key c r1 ≠ RegistryApiCache_make_key c r3.
Proof.
  intros c r1 r2 r3. split.
  - apply (api_key_deterministic_and_separating None None None r1 r2);
      reflexivity.
  - apply (api_key_deterministic_and_separating None None None r1 r3).
    + reflexivity.
    + reflexivity.
    + left. split; reflexivity.
    + right. left. discriminate.
Defined.

Lemma missing_accept_is_empty_accept_witness :
  let c := RegistryCache_init (Time:=Z) (Auth:=unit) None None None in
  RegistryContentCache_make_key c
    (mkAioRequest "/v2/r/blobs/sha256:ab" "GET" "registry"
       [("User-Agent", "podman")])
  = inr "/v2/r/blobs/sha256:ab:GET:"
  ∧ RegistryApiCache_make_key c
      (mkDjangoRequest "/v2/" "GET" "registry" [] [] ∅)
    = inr "/v2/:GET:".
Proof.
  intros c.
  destruct (missing_accept_is_empty_accept (Time:=Z) (Auth:=unit) None None
              None) as (Hcontent & Hapi).
  split.
  - apply (Hcontent (mkAioRequest "/v2/r/blobs/sha256:ab" "GET" "registry"
                       [("User-Agent", "podman")])).
    reflexivity.
  - apply (Hapi (mkDjangoRequest "/v2/" "GET" "registry" [] [] ∅)).
    reflexivity.
Defined.

Lemma stored_entry_short_circuits_resolver_witness :
  let result := make_entry Z.add dumps_type Some api_cache "k" "a/b"
                  (returning raw_response) tt tt None ∅ 1000 in
  find_base_path_cached (fun p => p) (sample_request "a/b")
    (store (snd result)) [] [] "default"
  = (inr "a/b", [CachedExists "a/b"]).
Proof.
  intros result.
  eapply (stored_entry_short_circuits_resolver Z.add dumps_type Some
            (fun p => p) api_cache "k" (returning raw_response) tt tt None ∅
            1000 _ (sample_request "a/b") "a/b");
    reflexivity.
Defined.
